(** * Shopping-cart service: the cart state manager

    A shallow embedding of package [cart] (the validated version of the cart
    manager: [GetCart], [AddItem], [UpdateItemQuantity], [RemoveItem],
    [ClearCart]) and of the two delete handlers of package [server].

    The Go methods talk to two external collaborators, a Redis client and the
    product-catalog gRPC client.  Every such call is kept as an explicit node
    of a small program tree ([prog]); the tree is then run against an
    in-memory model of the Redis keyspace and of the catalog ([world]), which
    also records the trace of the calls that were made. *)

From Stdlib Require Import ZArith String List Bool Lia.
From Stdlib Require Import PrimFloat Uint63.
From stdpp Require Import base option gmap strings pretty sorting.

Import ListNotations.
Local Open Scope string_scope.
Local Open Scope Z_scope.

(** ** Machine numbers *)

(** Go's [int32] and [int64] are kept as [Z]; arithmetic that can leave the
    range is wrapped to two's complement explicitly. *)
Definition wrap (bits : Z) (z : Z) : Z :=
  (z + 2 ^ (bits - 1)) mod 2 ^ bits - 2 ^ (bits - 1).

Definition wrap32 : Z -> Z := wrap 32.
Definition wrap64 : Z -> Z := wrap 64.

Definition int32_range (z : Z) : Prop := - 2 ^ 31 <= z < 2 ^ 31.

(** Go's [float64] is IEEE 754 binary64, which is what the primitive [float]
    is.  [float64(q)] for an [int32] [q] is exact. *)
Definition float64_of_int32 (q : Z) : float :=
  if q <? 0 then PrimFloat.opp (PrimFloat.of_uint63 (Uint63.of_Z (- q)))
  else PrimFloat.of_uint63 (Uint63.of_Z q).

(** [time.Duration(ttl) * time.Second]: an [int64] product, in nanoseconds. *)
Definition time_Second : Z := 1000000000.

Definition time_Duration_mul (d unit : Z) : Z := wrap64 (d * unit).

(** The number of seconds the Redis client sends for a duration: a positive
    duration below one second is rounded up to 1, any other is divided by one
    second, truncating towards zero. *)
Definition formatSec (dur : Z) : Z :=
  if (0 <? dur) && (dur <? time_Second) then 1 else Z.quot dur time_Second.

(** ** Errors *)

(** gRPC status codes are [uint32] constants. *)
Definition codes_Unknown : Z := 2.
Definition codes_NotFound : Z := 5.
Definition codes_Internal : Z := 13.

(** The values of Go's [error] interface that can flow through the package:
    its five sentinels, [redis.Nil] and any other failure of the Redis
    client, a gRPC status error, an error of [encoding/json]; [Panic] stands
    for a nil-pointer dereference. *)
Inductive error : Type :=
| ErrItemNotFound
| ErrProductNotFound
| ErrInsufficientStock
| ErrInvalidQuantity
| ErrInvalidSKU
| redis_Nil
| RedisError (msg : string)
| StatusError (code : Z) (msg : string)
| JSONError (msg : string)
| Panic.

(** [status.Code(err)]: the code of a status error, [codes.Unknown] for any
    other non-nil error. *)
Definition status_Code (err : error) : Z :=
  match err with
  | StatusError code _ => code
  | _ => codes_Unknown
  end.

(** [status.Error(code, msg)]. *)
Definition status_Error (code : Z) (msg : string) : error := StatusError code msg.

(** [errors.Is(err, redis.Nil)]. *)
Definition is_redis_Nil (err : error) : bool :=
  match err with
  | redis_Nil => true
  | _ => false
  end.

(** Go's [(value, err)] result of an external call: [Fail err] is
    [err != nil]. *)
Inductive reply (A : Type) : Type :=
| OK (a : A)
| Fail (err : error).

Arguments OK {A} a.
Arguments Fail {A} err.

(** ** Catalog messages (package [product]) *)

Module product.

Record Product : Type := {
  Price : float;
  Name : string;
  ImageUrl : string;
  StockQuantity : Z;
}.

(** The response carries a pointer to the product, which may be nil. *)
Record GetProductBySKUResponse : Type := {
  Product_ptr : option Product;
}.

Definition GetProduct (p : GetProductBySKUResponse) : option Product :=
  Product_ptr p.

(** Generated getters are nil-safe: on a nil product the stock is 0. *)
Definition GetStockQuantity (x : option Product) : Z :=
  match x with
  | Some pr => StockQuantity pr
  | None => 0
  end.

End product.

(** ** Cart entries and their serialisation *)

Record Item : Type := {
  Quantity : Z;
  Price : float;
  Name : string;
  ImageURL : string;
  ItemTotalPrice : float;
}.

(** [encoding/json] is used through [json.Marshal] and [json.Unmarshal] on
    [Item] only.  The stored text is kept abstract (type [doc]); what is
    assumed of the codec is that a document produced by [json.Marshal]
    decodes to the item it was produced from (the strings of an item are
    protobuf or JSON strings, hence valid UTF-8). *)
Class JSON (doc : Type) : Type := {
  json_Marshal : Item -> reply doc;
  json_Unmarshal : doc -> reply Item;
  json_roundtrip : forall (i : Item) (d : doc),
    json_Marshal i = OK d -> json_Unmarshal d = OK i;
}.

(** ** External calls and programs over them *)

Section Calls.

Context {doc : Type}.

(** The commands of the Redis client and the unary catalog lookup, indexed
    by the type of the value they return on success. *)
Inductive call : Type -> Type :=
| HGetAll (key : string) : call (list (string * doc))
| HGet (key field : string) : call doc
| HSet (key field : string) (value : doc) : call Z
| Expire (key : string) (expiration : Z) : call bool
| HDel (key field : string) : call Z
| Del (key : string) : call Z
| GetProductBySKU (sku : string) : call product.GetProductBySKUResponse.

Definition is_catalog_call {A : Type} (c : call A) : bool :=
  match c with
  | GetProductBySKU _ => true
  | _ => false
  end.

Definition is_store_call {A : Type} (c : call A) : bool :=
  negb (is_catalog_call c).

Definition is_store_write {A : Type} (c : call A) : bool :=
  match c with
  | HSet _ _ _ | Expire _ _ | HDel _ _ | Del _ => true
  | _ => false
  end.

Definition is_Expire {A : Type} (c : call A) : bool :=
  match c with
  | Expire _ _ => true
  | _ => false
  end.

(** A method body: it returns, or makes a call and continues with the
    reply. *)
Inductive prog (B : Type) : Type :=
| Ret (b : B)
| Vis {A : Type} (c : call A) (k : reply A -> prog B).

(** One call that was made, with the reply it got. *)
Inductive event : Type :=
| Event {A : Type} (c : call A) (r : reply A).

End Calls.

Arguments call : clear implicits.
Arguments prog : clear implicits.
Arguments event : clear implicits.
Arguments Ret {doc B} b.
Arguments Vis {doc B A} c k.
Arguments Event {doc A} c r.

Fixpoint bind {doc B C : Type} (p : prog doc B) (f : B -> prog doc C) : prog doc C :=
  match p with
  | Ret b => f b
  | Vis c k => Vis c (fun r => bind (k r) f)
  end.

Definition perform {doc A : Type} (c : call doc A) : prog doc (reply A) :=
  Vis c Ret.

Notation "x <- p ;; q" := (bind p (fun x => q))
  (at level 100, p at next level, right associativity).

(** ** The environment: Redis keyspace, catalog, store outages *)

(** The Redis keyspace holds one hash per key ([hashes]; a key exists iff it
    is bound here) and the time to live armed on a key by the last [EXPIRE]
    ([expiry], in seconds, always positive).  [catalog] is what the catalog
    service answers to a lookup.  [outages] is the fate of the coming store
    commands, oldest first: [Some err] makes the command fail with [err]
    without being applied, [None] (or an exhausted list) lets it through.
    [range_order] is the order in which Go will range over the map that a
    [HGetAll] returns: Go leaves that order unspecified, so it belongs to the
    environment; the entries are visited by increasing rank of their field.
    The passing of time is not modelled: a key with a positive time to live
    stays until it is deleted. *)
Record world (doc : Type) : Type := World {
  hashes : gmap string (gmap string doc);
  expiry : gmap string Z;
  catalog : string -> reply product.GetProductBySKUResponse;
  outages : list (option error);
  range_order : string -> nat;
}.

Arguments World {doc} _ _ _ _ _.
Arguments hashes {doc} _.
Arguments expiry {doc} _.
Arguments catalog {doc} _.
Arguments outages {doc} _.
Arguments range_order {doc} _.

Section Environment.

Context {doc : Type}.

Definition set_store (w : world doc) (h : gmap string (gmap string doc))
    (e : gmap string Z) : world doc :=
  World h e (catalog w) (outages w) (range_order w).

(** The entries of a hash as a Go map that is about to be ranged over: a
    permutation of the entries, in the order the environment has chosen
    (any permutation can be chosen, see [ranged_any_order]). *)
Definition ranged (w : world doc) (h : gmap string doc) : list (string * doc) :=
  @merge_sort (string * doc)
    (fun x y => (range_order w x.1 <= range_order w y.1)%nat)
    (fun x y => decide (range_order w x.1 <= range_order w y.1)%nat)
    (map_to_list h).

Definition hash_at (w : world doc) (key : string) : gmap string doc :=
  default ∅ (hashes w !! key).

(** What a healthy Redis does with each command, and the catalog with a
    lookup.  [EXPIRE] with a timeout that is not positive deletes the key. *)
Definition respond {A : Type} (c : call doc A) (w : world doc) : reply A * world doc :=
  match c in call _ A return reply A * world doc with
  | HGetAll key => (OK (ranged w (hash_at w key)), w)
  | HGet key field =>
      match hash_at w key !! field with
      | Some v => (OK v, w)
      | None => (Fail redis_Nil, w)
      end
  | HSet key field value =>
      let h := hash_at w key in
      (OK (match h !! field with Some _ => 0 | None => 1 end),
       set_store w (<[key := <[field := value]> h]> (hashes w)) (expiry w))
  | Expire key expiration =>
      match hashes w !! key with
      | Some _ =>
          if formatSec expiration <=? 0
          then (OK true, set_store w (delete key (hashes w)) (delete key (expiry w)))
          else (OK true,
                set_store w (hashes w) (<[key := formatSec expiration]> (expiry w)))
      | None => (OK false, w)
      end
  | HDel key field =>
      match hashes w !! key with
      | Some h =>
          match h !! field with
          | Some _ =>
              let h' := delete field h in
              if decide (h' = ∅)
              then (OK 1, set_store w (delete key (hashes w)) (delete key (expiry w)))
              else (OK 1, set_store w (<[key := h']> (hashes w)) (expiry w))
          | None => (OK 0, w)
          end
      | None => (OK 0, w)
      end
  | Del key =>
      match hashes w !! key with
      | Some _ => (OK 1, set_store w (delete key (hashes w)) (delete key (expiry w)))
      | None => (OK 0, w)
      end
  | GetProductBySKU sku => (catalog w sku, w)
  end.

Definition next_outage (w : world doc) : option error :=
  match outages w with
  | o :: _ => o
  | [] => None
  end.

Definition pop_outage (w : world doc) : world doc :=
  World (hashes w) (expiry w) (catalog w) (tail (outages w)) (range_order w).

(** One call against the environment: a store command first consumes its
    entry of [outages]. *)
Definition serve {A : Type} (c : call doc A) (w : world doc) : reply A * world doc :=
  if is_catalog_call c then respond c w
  else
    match next_outage w with
    | Some err => (Fail err, pop_outage w)
    | None => respond c (pop_outage w)
    end.

(** Running a method body: the value returned, the environment it leaves,
    and the calls it made, in order. *)
Fixpoint run {B : Type} (p : prog doc B) (w : world doc) : B * world doc * list (event doc) :=
  match p with
  | Ret b => (b, w, [])
  | Vis c k =>
      let '(r, w1) := serve c w in
      let '(b, w2, tr) := run (k r) w1 in
      (b, w2, Event c r :: tr)
  end.

Definition result_of {B : Type} (x : B * world doc * list (event doc)) : B := x.1.1.
Definition world_of {B : Type} (x : B * world doc * list (event doc)) : world doc := x.1.2.
Definition trace_of {B : Type} (x : B * world doc * list (event doc)) : list (event doc) := x.2.

Definition event_is_catalog (e : event doc) : bool :=
  match e with
  | Event c _ => is_catalog_call c
  end.

Definition event_is_write (e : event doc) : bool :=
  match e with
  | Event c _ => is_store_write c
  end.

Definition event_is_Expire (e : event doc) : bool :=
  match e with
  | Event c _ => is_Expire c
  end.

(** What the catalog answered, when the call is a catalog lookup. *)
Definition catalog_answer (e : event doc) : option (reply product.GetProductBySKUResponse) :=
  match e with
  | Event c r =>
      match c in call _ A return reply A -> option (reply product.GetProductBySKUResponse) with
      | GetProductBySKU _ => fun r => Some r
      | _ => fun _ => None
      end r
  end.

(** The error of a store command that failed, [redis.Nil] included. *)
Definition store_failure (e : event doc) : option error :=
  match e with
  | Event c (Fail err) => if is_store_call c then Some err else None
  | Event _ (OK _) => None
  end.

End Environment.

(** ** Package [cart] *)

Module cart.

Record ShoppingCart : Type := {
  ttl : Z;
}.

Definition New (ttl : Z) : ShoppingCart := {| ttl := ttl |}.

(** [fmt.Sprintf("cart:%d", userID)]. *)
Definition cartKey (userID : Z) : string := "cart:" +:+ pretty userID.

Example cartKey_42 : cartKey 42 = "cart:42".
Proof. reflexivity. Qed.

Example cartKey_negative : cartKey (-7) = "cart:-7".
Proof. reflexivity. Qed.

Section Methods.

Context {doc : Type} `{!JSON doc}.

(** The [for _, details := range res] loop of [GetCart].  [res] is the map
    listed in the order in which this iteration visits it, an order that the
    environment chooses afresh for every map it hands out ([ranged]); the
    total price, a [float64] sum, depends on it.  [inr err] is the early
    [return] on a value that does not decode.  The product is rounded before
    it is added (no fused multiply-add). *)
Fixpoint GetCart_range (res : list (string * doc)) (totalPrice : float)
    (totalItems : Z) : (float * Z) + error :=
  match res with
  | [] => inl (totalPrice, totalItems)
  | (_, details) :: res' =>
      match json_Unmarshal details with
      | Fail err => inr err
      | OK CartItem =>
          GetCart_range res'
            (PrimFloat.add totalPrice
               (PrimFloat.mul (Price CartItem) (float64_of_int32 (Quantity CartItem))))
            (wrap32 (totalItems + Quantity CartItem))
      end
  end.

(** The four results of [GetCart]: the raw map ([None] is the nil map), the
    total price, the total number of items, the error ([None] is nil). *)
Definition GetCart (c : ShoppingCart) (userID : Z)
    : prog doc (option (list (string * doc)) * float * Z * option error) :=
  let key := cartKey userID in
  r <- perform (HGetAll key) ;;
  match r with
  | Fail err => Ret (None, 0%float, 0, Some err)
  | OK res =>
      match GetCart_range res 0%float 0 with
      | inr err => Ret (None, 0%float, 0, Some err)
      | inl (totalPrice, totalItems) => Ret (Some res, totalPrice, totalItems, None)
      end
  end.

Definition AddItem (c : ShoppingCart) (userID : Z) (quantity : Z) (sku : string)
    : prog doc (option Item * option error) :=
  if quantity <=? 0 then Ret (None, Some ErrInvalidQuantity) else
  if String.eqb sku "" then Ret (None, Some ErrInvalidSKU) else
  let key := cartKey userID in
  r <- perform (GetProductBySKU sku) ;;
  match r with
  | Fail err =>
      if status_Code err =? codes_NotFound then Ret (None, Some ErrProductNotFound)
      else Ret (None, Some err)
  | OK p =>
      if product.GetStockQuantity (product.GetProduct p) <? quantity
      then Ret (None, Some ErrInsufficientStock)
      else
        match product.Product_ptr p with
        | None => Ret (None, Some Panic)
        | Some pr =>
            let item := {|
              Quantity := quantity;
              Price := product.Price pr;
              Name := product.Name pr;
              ImageURL := product.ImageUrl pr;
              ItemTotalPrice := PrimFloat.mul (float64_of_int32 quantity) (product.Price pr);
            |} in
            match json_Marshal item with
            | Fail err => Ret (None, Some err)
            | OK encodedValue =>
                r <- perform (HSet key sku encodedValue) ;;
                match r with
                | Fail err => Ret (None, Some err)
                | OK _ =>
                    r <- perform (Expire key (time_Duration_mul (ttl c) time_Second)) ;;
                    match r with
                    | Fail err => Ret (None, Some err)
                    | OK _ => Ret (Some item, None)
                    end
                end
            end
        end
  end.

(** [item.Quantity = quantity]. *)
Definition set_Quantity (item : Item) (quantity : Z) : Item := {|
  Quantity := quantity;
  Price := Price item;
  Name := Name item;
  ImageURL := ImageURL item;
  ItemTotalPrice := ItemTotalPrice item;
|}.

Definition UpdateItemQuantity (c : ShoppingCart) (userID : Z) (quantity : Z) (sku : string)
    : prog doc (option Item * option error) :=
  if quantity <=? 0 then Ret (None, Some ErrInvalidQuantity) else
  if String.eqb sku "" then Ret (None, Some ErrInvalidSKU) else
  let key := cartKey userID in
  r <- perform (HGet key sku) ;;
  match r with
  | Fail err =>
      if is_redis_Nil err then Ret (None, Some ErrItemNotFound)
      else Ret (None, Some err)
  | OK result =>
      r <- perform (GetProductBySKU sku) ;;
      match r with
      | Fail err =>
          if status_Code err =? codes_NotFound then Ret (None, Some ErrProductNotFound)
          else Ret (None, Some err)
      | OK p =>
          if product.GetStockQuantity (product.GetProduct p) <? quantity
          then Ret (None, Some ErrInsufficientStock)
          else
            match json_Unmarshal result with
            | Fail err => Ret (None, Some err)
            | OK item0 =>
                let item := set_Quantity item0 quantity in
                match json_Marshal item with
                | Fail err => Ret (None, Some err)
                | OK encodedValue =>
                    r <- perform (HSet key sku encodedValue) ;;
                    match r with
                    | Fail err => Ret (None, Some err)
                    | OK _ =>
                        r <- perform (Expire key (time_Duration_mul (ttl c) time_Second)) ;;
                        match r with
                        | Fail err => Ret (None, Some err)
                        | OK _ => Ret (Some item, None)
                        end
                    end
                end
            end
      end
  end.

(** The command's result is dropped: the method returns nothing. *)
Definition RemoveItem (c : ShoppingCart) (userID : Z) (sku : string) : prog doc unit :=
  let key := cartKey userID in
  _ <- perform (HDel key sku) ;;
  Ret tt.

Definition ClearCart (c : ShoppingCart) (userID : Z) : prog doc unit :=
  let key := cartKey userID in
  _ <- perform (Del key) ;;
  Ret tt.

End Methods.

End cart.

(** ** The older [cart] package (without validation) *)

(** The repository also holds the earlier version of the package.  Its
    [GetCart], [RemoveItem] and [ClearCart] are the ones above, word for
    word; its [AddItem] and [UpdateItemQuantity] return only an error, do
    not validate their arguments, and the update does not consult the
    catalog. *)
Module cart0.

Section Methods.

Context {doc : Type} `{!JSON doc}.

Definition AddItem (c : cart.ShoppingCart) (userID : Z) (quantity : Z) (sku : string)
    : prog doc (option error) :=
  let key := cart.cartKey userID in
  r <- perform (GetProductBySKU sku) ;;
  match r with
  | Fail err => Ret (Some err)
  | OK p =>
      match product.Product_ptr p with
      | None => Ret (Some Panic)
      | Some pr =>
          let value := {|
            Quantity := quantity;
            Price := product.Price pr;
            Name := product.Name pr;
            ImageURL := product.ImageUrl pr;
            ItemTotalPrice := PrimFloat.mul (float64_of_int32 quantity) (product.Price pr);
          |} in
          match json_Marshal value with
          | Fail err => Ret (Some err)
          | OK encodedValue =>
              r <- perform (HSet key sku encodedValue) ;;
              match r with
              | Fail err => Ret (Some err)
              | OK _ =>
                  r <- perform (Expire key (time_Duration_mul (cart.ttl c) time_Second)) ;;
                  match r with
                  | Fail err => Ret (Some err)
                  | OK _ => Ret None
                  end
              end
          end
      end
  end.

Definition UpdateItemQuantity (c : cart.ShoppingCart) (userID : Z) (quantity : Z)
    (sku : string) : prog doc (option error) :=
  let key := cart.cartKey userID in
  r <- perform (HGet key sku) ;;
  match r with
  | Fail err => Ret (Some err)
  | OK item =>
      match json_Unmarshal item with
      | Fail err => Ret (Some err)
      | OK value0 =>
          let value := cart.set_Quantity value0 quantity in
          match json_Marshal value with
          | Fail err => Ret (Some err)
          | OK encodedValue =>
              r <- perform (HSet key sku encodedValue) ;;
              match r with
              | Fail err => Ret (Some err)
              | OK _ =>
                  r <- perform (Expire key (time_Duration_mul (cart.ttl c) time_Second)) ;;
                  match r with
                  | Fail err => Ret (Some err)
                  | OK _ => Ret None
                  end
              end
          end
      end
  end.

End Methods.

End cart0.

(** ** Error texts and response messages *)

(** [codes.Code.String()]. *)
Definition codes_String (code : Z) : string :=
  match code with
  | 0 => "OK"
  | 1 => "Canceled"
  | 2 => "Unknown"
  | 3 => "InvalidArgument"
  | 4 => "DeadlineExceeded"
  | 5 => "NotFound"
  | 6 => "AlreadyExists"
  | 7 => "PermissionDenied"
  | 8 => "ResourceExhausted"
  | 9 => "FailedPrecondition"
  | 10 => "Aborted"
  | 11 => "OutOfRange"
  | 12 => "Unimplemented"
  | 13 => "Internal"
  | 14 => "Unavailable"
  | 15 => "DataLoss"
  | 16 => "Unauthenticated"
  | _ => "Code(" +:+ pretty code +:+ ")"
  end.

(** [err.Error()].  The sentinels carry the text given to [errors.New]; a
    client or codec error carries its own text; [Panic] is not an error
    value and has none. *)
Definition error_Error (err : error) : string :=
  match err with
  | ErrItemNotFound => "item not found in cart"
  | ErrProductNotFound => "product not found"
  | ErrInsufficientStock => "insufficient stock for product"
  | ErrInvalidQuantity => "invalid quantity"
  | ErrInvalidSKU => "invalid SKU"
  | redis_Nil => "redis: nil"
  | RedisError msg => msg
  | StatusError code msg => "rpc error: code = " +:+ codes_String code +:+ " desc = " +:+ msg
  | JSONError msg => msg
  | Panic => ""
  end.

(** [errors.Is(err, cart.ErrItemNotFound)]. *)
Definition is_ErrItemNotFound (err : error) : bool :=
  match err with
  | ErrItemNotFound => true
  | _ => false
  end.

(** The messages of the cart service (package [pb]). *)
Module pb.

Record CartItem : Type := {
  Quantity : Z;
  Price : float;
  Sku : string;
  Name : string;
  ImageUrl : string;
  ItemTotalPrice : float;
}.

Record GetCartResponse : Type := {
  Items : list CartItem;
  TotalPrice : float;
  TotalItems : Z;
}.

Record AddItemResponse : Type := {
  AddItemResponse_Item : CartItem;
}.

Record UpdateItemResponse : Type := {
  UpdateItemResponse_Item : CartItem;
}.

End pb.

(** ** Package [server]: the two delete handlers *)

Module server.

Record Server : Type := {
  Cart : cart.ShoppingCart;
}.

Section Handlers.

Context {doc : Type}.

(** [ctx_user] is [ctx.Value("user-id").(int)]: [None] when the value is
    missing or is not an [int].  The response messages are empty. *)
Definition RemoveItem (s : Server) (ctx_user : option Z) (sku : string)
    : prog doc (option unit * option error) :=
  match ctx_user with
  | None => Ret (None, Some (status_Error codes_Internal "user id missing"))
  | Some userID =>
      let userIDInt := userID in
      _ <- cart.RemoveItem (doc := doc) (Cart s) userIDInt sku ;;
      Ret (Some tt, None)
  end.

Definition ClearCart (s : Server) (ctx_user : option Z)
    : prog doc (option unit * option error) :=
  match ctx_user with
  | None => Ret (None, Some (status_Error codes_Internal "user id missing"))
  | Some userID =>
      let userIDInt := userID in
      _ <- cart.ClearCart (doc := doc) (Cart s) userIDInt ;;
      Ret (Some tt, None)
  end.

End Handlers.

Section ItemHandlers.

Context {doc : Type} `{!JSON doc}.

(** The message built from an entry and its sku. *)
Definition CartItem_of (sku : string) (item : Item) : pb.CartItem := {|
  pb.Quantity := Quantity item;
  pb.Price := Price item;
  pb.Sku := sku;
  pb.Name := Name item;
  pb.ImageUrl := ImageURL item;
  pb.ItemTotalPrice := ItemTotalPrice item;
|}.

(** The [for sku, details := range resItems] loop of the handler: it
    decodes every value again and appends one message per entry. *)
Fixpoint GetCart_items (resItems : list (string * doc)) (items : list pb.CartItem)
    : list pb.CartItem + error :=
  match resItems with
  | [] => inl items
  | (sku, details) :: resItems' =>
      match json_Unmarshal details with
      | Fail err =>
          inr (status_Error codes_Internal
                 ("failed to unmarshal cart item: " +:+ error_Error err))
      | OK jsonMap => GetCart_items resItems' (items ++ [CartItem_of sku jsonMap])
      end
  end.

Definition GetCart (s : Server) (ctx_user : option Z)
    : prog doc (option pb.GetCartResponse * option error) :=
  match ctx_user with
  | None => Ret (None, Some (status_Error codes_Internal "user id missing"))
  | Some userID =>
      let userIDInt := userID in
      r <- cart.GetCart (Cart s) userIDInt ;;
      match r with
      | (_, _, _, Some err) =>
          Ret (None, Some (status_Error codes_Internal (error_Error err)))
      | (resItems, totalPrice, totalItems, None) =>
          match GetCart_items (default [] resItems) [] with
          | inr err => Ret (None, Some err)
          | inl items =>
              Ret (Some {| pb.Items := items;
                           pb.TotalPrice := totalPrice;
                           pb.TotalItems := totalItems |}, None)
          end
      end
  end.

(** [quantity] and [sku] are [r.GetQuantity()] and [r.GetSku()].  The
    [log.Println] of the error is not modelled.  A panic of the callee
    unwinds through the handler; a nil item with a nil error would be
    dereferenced. *)
Definition AddItem (s : Server) (ctx_user : option Z) (quantity : Z) (sku : string)
    : prog doc (option pb.AddItemResponse * option error) :=
  match ctx_user with
  | None => Ret (None, Some (status_Error codes_Internal "user id missing"))
  | Some userID =>
      let userIDInt := userID in
      r <- cart.AddItem (Cart s) userIDInt quantity sku ;;
      match r with
      | (_, Some Panic) => Ret (None, Some Panic)
      | (_, Some err) =>
          Ret (None, Some (status_Error codes_Internal (error_Error err)))
      | (Some item, None) =>
          Ret (Some {| pb.AddItemResponse_Item := CartItem_of sku item |}, None)
      | (None, None) => Ret (None, Some Panic)
      end
  end.

Definition UpdateItem (s : Server) (ctx_user : option Z) (quantity : Z) (sku : string)
    : prog doc (option pb.UpdateItemResponse * option error) :=
  match ctx_user with
  | None => Ret (None, Some (status_Error codes_Internal "user id missing"))
  | Some userID =>
      let userIDInt := userID in
      r <- cart.UpdateItemQuantity (Cart s) userIDInt quantity sku ;;
      match r with
      | (_, Some err) =>
          if is_ErrItemNotFound err
          then Ret (None, Some (status_Error codes_NotFound "item not found in cart"))
          else Ret (None, Some (status_Error codes_Internal (error_Error err)))
      | (Some item, None) =>
          Ret (Some {| pb.UpdateItemResponse_Item := CartItem_of sku item |}, None)
      | (None, None) => Ret (None, Some Panic)
      end
  end.

End ItemHandlers.

End server.

(** ** A concrete codec and concrete environments *)

Module sample.

(** A stored text, seen through what [json.Unmarshal] makes of it: the
    encoding of an item, or something that does not decode. *)
Inductive text : Type :=
| Encoded (i : Item)
| Malformed (raw : string).

(** [json.Marshal] rejects NaN and the infinities. *)
Definition Marshal (i : Item) : reply text :=
  if PrimFloat.is_finite (Price i) && PrimFloat.is_finite (ItemTotalPrice i)
  then OK (Encoded i)
  else Fail (JSONError "json: unsupported value").

Definition Unmarshal (d : text) : reply Item :=
  match d with
  | Encoded i => OK i
  | Malformed _ => Fail (JSONError "json: cannot unmarshal")
  end.

Lemma Unmarshal_Marshal (i : Item) (d : text) :
  Marshal i = OK d -> Unmarshal d = OK i.
Proof.
  unfold Marshal. destruct (_ && _); intros H; inversion H. reflexivity.
Qed.

#[global] Instance codec : JSON text := {|
  json_Marshal := Marshal;
  json_Unmarshal := Unmarshal;
  json_roundtrip := Unmarshal_Marshal;
|}.

Definition widget (price : float) (stock : Z) : product.Product := {|
  product.Price := price;
  product.Name := "Widget";
  product.ImageUrl := "https://img.example/widget.png";
  product.StockQuantity := stock;
|}.

(** A catalog that knows one product, under "SKU-1". *)
Definition one_product (pr : product.Product) (sku : string)
    : reply product.GetProductBySKUResponse :=
  if String.eqb sku "SKU-1" then OK {| product.Product_ptr := Some pr |}
  else Fail (StatusError codes_NotFound "product not found").

Definition shop : cart.ShoppingCart := cart.New 1800.

(** No cart anywhere, a healthy store, the widget at 10.00 with 100 in stock. *)
Definition empty_world : world text :=
  World ∅ ∅ (one_product (widget 10%float 100)) [] (fun _ => 0%nat).

(** The same after user 7 has put two widgets in the cart. *)
Definition cart_world : world text :=
  world_of (run (cart.AddItem shop 7 2 "SKU-1") empty_world).

(** The same cart at a time when its key carries no expiry. *)
Definition unarmed_world : world text :=
  World (hashes cart_world) ∅ (one_product (widget 10%float 100)) [] (fun _ => 0%nat).

(** A cart of three skus, one item each, at 0.1, 0.2 and 0.3, ranged over
    in the order given by [rank]. *)
Definition coin (price : float) : Item := {|
  Quantity := 1;
  Price := price;
  Name := "Coin";
  ImageURL := "https://img.example/coin.png";
  ItemTotalPrice := price;
|}.

(** The [float64] values of 0.1, 0.2 and 0.3. *)
Definition p01 : float := 0x1.999999999999ap-4%float.
Definition p02 : float := 0x1.999999999999ap-3%float.
Definition p03 : float := 0x1.3333333333333p-2%float.

Definition coins : gmap string text :=
  <[ "A" := Encoded (coin p01) ]>
    (<[ "B" := Encoded (coin p02) ]>
       (<[ "C" := Encoded (coin p03) ]> ∅)).

Definition coins_world (rank : string -> nat) : world text :=
  World {[ cart.cartKey 7 := coins ]} ∅ (one_product (widget 10%float 100)) [] rank.

Definition forwards (sku : string) : nat :=
  if String.eqb sku "A" then 0%nat else if String.eqb sku "B" then 1%nat else 2%nat.

Definition backwards (sku : string) : nat :=
  if String.eqb sku "A" then 2%nat else if String.eqb sku "B" then 1%nat else 0%nat.



(** A catalog that knows every sku, with the largest stock an [int32] holds. *)
Definition warehouse (sku : string) : reply product.GetProductBySKUResponse :=
  OK {| product.Product_ptr := Some (widget 1%float 2147483647) |}.

(** User 7 has put 2147483647 of one sku and 1 of another in the cart. *)
Definition bulk_world : world text :=
  world_of (run (cart.AddItem shop 7 1 "SKU-2")
              (world_of (run (cart.AddItem shop 7 2147483647 "SKU-1")
                           (World ∅ ∅ warehouse [] (fun _ => 0%nat))))).

(** A cart with one value that is not an encoded item. *)
Definition corrupt_world : world text :=
  World {[ cart.cartKey 7 := {[ "SKU-1" := Malformed "{oops" ]} ]} ∅
    (one_product (widget 10%float 100)) [] (fun _ => 0%nat).

(** The cart of [cart_world] behind a store that refuses the next command. *)
Definition store_down_world : world text :=
  World (hashes cart_world) (expiry cart_world) (catalog cart_world)
    [Some (RedisError "dial tcp: connection refused")] (fun _ => 0%nat).

End sample.

(** ** The two mutating methods, taken together *)

Inductive mutator : Type :=
| Add
| Update.

Definition mutate {doc : Type} `{!JSON doc} (m : mutator)
    : cart.ShoppingCart -> Z -> Z -> string -> prog doc (option Item * option error) :=
  match m with
  | Add => cart.AddItem
  | Update => cart.UpdateItemQuantity
  end.

(** ** The totals of a cart, as the specification words them *)

Section Totals.

Context {doc : Type} `{!JSON doc}.

(** The entries of a cart, decoded; [None] when some value does not
    decode. *)
Fixpoint decode_all (res : list (string * doc)) : option (list Item) :=
  match res with
  | [] => Some []
  | (_, details) :: res' =>
      match json_Unmarshal details with
      | OK i =>
          match decode_all res' with
          | Some items => Some (i :: items)
          | None => None
          end
      | Fail _ => None
      end
  end.

(** The sum of the quantities, as an integer. *)
Definition sum_quantities (items : list Item) : Z :=
  fold_right (fun i acc => Quantity i + acc) 0 items.

(** The sum of unit price times quantity, accumulated in [float64] from 0
    in the order of the entries. *)
Definition sum_line_totals (items : list Item) : float :=
  fold_left
    (fun acc i => PrimFloat.add acc (PrimFloat.mul (Price i) (float64_of_int32 (Quantity i))))
    items 0%float.

End Totals.

(** * Properties *)

(** ** Facts about durations *)

Lemma formatSec_pos (dur : Z) : 0 < dur -> 0 < formatSec dur.
Proof.
  intros Hd. unfold formatSec.
  destruct ((0 <? dur) && (dur <? time_Second)) eqn:Hs; [lia |].
  assert (Hge : time_Second <= dur).
  { apply andb_false_iff in Hs as [Hs | Hs].
    - apply Z.ltb_ge in Hs. lia.
    - apply Z.ltb_ge in Hs. exact Hs. }
  assert (1 <= Z.quot dur time_Second); [| lia].
  apply Z.quot_le_lower_bound; unfold time_Second in *; lia.
Qed.

Lemma formatSec_nonpos (dur : Z) : dur <= 0 -> formatSec dur <= 0.
Proof.
  intros Hd. unfold formatSec.
  replace (0 <? dur) with false by (symmetry; apply Z.ltb_ge; lia).
  cbn [andb]. apply Z.quot_le_upper_bound; unfold time_Second; lia.
Qed.

Lemma formatSec_keeps (dur : Z) : 0 < dur -> (formatSec dur <=? 0) = false.
Proof. intros Hd. apply Z.leb_gt. apply formatSec_pos. exact Hd. Qed.

Lemma formatSec_deletes (dur : Z) : dur <= 0 -> (formatSec dur <=? 0) = true.
Proof. intros Hd. apply Z.leb_le. apply formatSec_nonpos. exact Hd. Qed.

(** A whole number of seconds that fits in a [time.Duration] is sent to the
    store as it is. *)
Lemma formatSec_seconds (ttl : Z) :
  0 < ttl -> ttl * time_Second < 2 ^ 63 ->
  formatSec (time_Duration_mul ttl time_Second) = ttl.
Proof.
  intros Hpos Hfit. unfold time_Duration_mul, wrap64, wrap.
  rewrite Z.mod_small by (unfold time_Second in *; lia).
  replace (ttl * time_Second + 2 ^ (64 - 1) - 2 ^ (64 - 1)) with (ttl * time_Second) by lia.
  unfold formatSec.
  replace (ttl * time_Second <? time_Second) with false
    by (symmetry; apply Z.ltb_ge; unfold time_Second; lia).
  rewrite andb_false_r. apply Z.quot_mul. unfold time_Second. lia.
Qed.

(** ** Every order of a map can be the one that is ranged over *)

Section RangeOrder.

Context {doc : Type}.

(** The place of a field in a list of fields. *)
Fixpoint position (k : string) (ks : list string) : nat :=
  match ks with
  | [] => 0%nat
  | k' :: ks' => if decide (k = k') then 0%nat else S (position k ks')
  end.

Lemma position_inj (ks : list string) (k1 k2 : string) :
  k1 ∈ ks -> k2 ∈ ks -> position k1 ks = position k2 ks -> k1 = k2.
Proof.
  induction ks as [| k ks IH]; intros H1 H2 E; [inversion H1 |].
  cbn [position] in E.
  destruct (decide (k1 = k)) as [-> | N1], (decide (k2 = k)) as [-> | N2];
    try congruence.
  apply IH; [| | congruence].
  - apply elem_of_cons in H1 as [? | ?]; [contradiction | assumption].
  - apply elem_of_cons in H2 as [? | ?]; [contradiction | assumption].
Qed.

Lemma field_of_entry (l : list (string * doc)) (x : string * doc) :
  x ∈ l -> x.1 ∈ l.*1.
Proof. intros Hx. apply list_elem_of_fmap. exists x. split; [reflexivity | exact Hx]. Qed.

Lemma same_field_same_entry (l : list (string * doc)) (x y : string * doc) :
  NoDup l.*1 -> x ∈ l -> y ∈ l -> x.1 = y.1 -> x = y.
Proof.
  induction l as [| z l IH]; intros Hnd Hx Hy E; [inversion Hx |].
  cbn [fmap list_fmap] in Hnd. apply NoDup_cons in Hnd as [Hz Hnd].
  apply elem_of_cons in Hx as [-> | Hx]; apply elem_of_cons in Hy as [-> | Hy].
  - reflexivity.
  - exfalso. apply Hz. rewrite E. apply field_of_entry. exact Hy.
  - exfalso. apply Hz. rewrite <- E. apply field_of_entry. exact Hx.
  - apply IH; assumption.
Qed.

Lemma sorted_by_position (rank : string -> nat) (l : list (string * doc)) :
  NoDup l.*1 ->
  (forall x y : string * doc, x ∈ l -> y ∈ l ->
     (position x.1 l.*1 <= position y.1 l.*1)%nat -> (rank x.1 <= rank y.1)%nat) ->
  StronglySorted (fun x y : string * doc => (rank x.1 <= rank y.1)%nat) l.
Proof.
  induction l as [| x l IH]; intros Hnd Hrank; [constructor |].
  cbn [fmap list_fmap] in *. apply NoDup_cons in Hnd as [Hx Hnd].
  assert (Hrest : forall y : string * doc, y ∈ l ->
            position y.1 (x.1 :: l.*1) = S (position y.1 l.*1)).
  { intros y Hy. cbn [position]. destruct (decide (y.1 = x.1)) as [E | N]; [| reflexivity].
    exfalso. apply Hx. rewrite <- E. apply field_of_entry. exact Hy. }
  constructor.
  - apply IH; [exact Hnd |]. intros y z Hy Hz Hle.
    apply Hrank; [right; exact Hy | right; exact Hz |].
    rewrite (Hrest y Hy), (Hrest z Hz). lia.
  - rewrite Forall_forall. intros y Hy.
    apply Hrank; [left | right; exact Hy |].
    cbn [position]. destruct (decide (x.1 = x.1)); [lia | congruence].
Qed.

(** Whatever permutation of the entries of a hash is wanted, the environment
    that ranks each field by its place in that permutation hands the map out
    in exactly that order. *)
Lemma ranged_any_order (w : world doc) (h : gmap string doc) (l : list (string * doc)) :
  l ≡ₚ map_to_list h ->
  (forall k : string, range_order w k = position k l.*1) ->
  ranged w h = l.
Proof.
  intros Hperm Hrank.
  assert (Hnd : NoDup l.*1).
  { rewrite Hperm. apply NoDup_fst_map_to_list. }
  set (R := fun x y : string * doc => (range_order w x.1 <= range_order w y.1)%nat).
  assert (Htrans : Transitive R) by (intros x y z; unfold R; lia).
  assert (Htotal : Total R) by (intros x y; unfold R; lia).
  unfold ranged. fold R.
  apply (StronglySorted_unique_strong R).
  - intros x1 x2 H1 H2 H12 H21. unfold R in H12, H21. rewrite !Hrank in H12, H21.
    rewrite merge_sort_Permutation, <- Hperm in H1.
    apply (same_field_same_entry l); [exact Hnd | exact H1 | exact H2 |].
    apply (position_inj l.*1); [apply field_of_entry; exact H1
                               | apply field_of_entry; exact H2 | lia].
  - apply StronglySorted_merge_sort; assumption.
  - apply sorted_by_position; [exact Hnd |].
    intros x y _ _ Hle. rewrite !Hrank. exact Hle.
  - rewrite merge_sort_Permutation. symmetry. exact Hperm.
Qed.

End RangeOrder.

(** ** Facts about running a program *)

Section RunFacts.

Context {doc : Type}.

Implicit Types (w : world doc).

Lemma run_Vis {A B : Type} (c : call doc A) (k : reply A -> prog doc B) w :
  run (Vis c k) w =
  (result_of (run (k (serve c w).1) (serve c w).2),
   world_of (run (k (serve c w).1) (serve c w).2),
   Event c (serve c w).1 :: trace_of (run (k (serve c w).1) (serve c w).2)).
Proof.
  simpl. destruct (serve c w) as [r w1]. simpl.
  destruct (run (k r) w1) as [[b w2] tr]. reflexivity.
Qed.

Lemma serve_catalog sku w :
  serve (GetProductBySKU sku) w = (catalog w sku, w).
Proof. reflexivity. Qed.

Lemma serve_store_down {A : Type} (c : call doc A) w err :
  is_catalog_call c = false -> next_outage w = Some err ->
  serve c w = (Fail err, pop_outage w).
Proof. intros Hc Ho. unfold serve. rewrite Hc, Ho. reflexivity. Qed.

Lemma serve_store_up {A : Type} (c : call doc A) w :
  is_catalog_call c = false -> next_outage w = None ->
  serve c w = respond c (pop_outage w).
Proof. intros Hc Ho. unfold serve. rewrite Hc, Ho. reflexivity. Qed.

Lemma hash_at_pop_outage w key : hash_at (pop_outage w) key = hash_at w key.
Proof. reflexivity. Qed.

End RunFacts.

(** Case analysis on the next store command: down, or answered. *)
Ltac store_call w :=
  let err := fresh "err" in
  let Ho := fresh "Ho" in
  destruct (next_outage w) as [err |] eqn:Ho;
  [ rewrite (serve_store_down _ w err) by first [reflexivity | exact Ho]
  | rewrite (serve_store_up _ w) by first [reflexivity | exact Ho] ].

(** Symbolic execution of a method body: unfold [run] as far as it goes,
    then split on the innermost undecided test, and repeat. *)
Ltac innermost_scrutinee t :=
  lazymatch t with
  | context [match ?x with _ => _ end] => innermost_scrutinee x
  | _ => t
  end.

Ltac split_test :=
  match goal with
  | |- context [match ?x with _ => _ end] =>
      let y := innermost_scrutinee x in destruct y eqn:?
  end.

Ltac run_cbn :=
  cbn [run bind perform serve respond is_catalog_call next_outage
       result_of world_of trace_of fst snd map existsb In
       catalog_answer store_failure event_is_write event_is_catalog event_is_Expire
       is_store_write is_store_call is_Expire negb orb andb
       hashes expiry catalog outages range_order set_store pop_outage].

Ltac symbex := run_cbn; repeat (split_test; run_cbn).

(** ** Invalid quantities (C4) *)

Section InvalidQuantity.

Context {doc : Type} `{!JSON doc}.

(** C4. [AddItem] and [UpdateItemQuantity] called with a quantity that is
    zero or negative return [ErrInvalidQuantity] (and no item), make no call
    at all, neither to the store nor to the catalog, and leave the
    environment exactly as it was. *)
Theorem invalid_quantity_no_effect (m : mutator) (c : cart.ShoppingCart)
    (userID quantity : Z) (sku : string) (w : world doc) :
  quantity <= 0 ->
  run (mutate m c userID quantity sku) w = ((None, Some ErrInvalidQuantity), w, []).
Proof.
  intros Hq. apply Z.leb_le in Hq.
  destruct m; unfold mutate, cart.AddItem, cart.UpdateItemQuantity;
    rewrite Hq; reflexivity.
Qed.

End InvalidQuantity.

Lemma invalid_quantity_no_effect_witness :
  (-1 <= 0) /\
  run (mutate Update sample.shop 7 (-1) "SKU-1") sample.empty_world
  = ((None, Some ErrInvalidQuantity), sample.empty_world, []).
Proof.
  split; [lia |].
  apply (invalid_quantity_no_effect Update sample.shop 7 (-1) "SKU-1" sample.empty_world).
  lia.
Defined.

(** ** Updating an item that is not in the cart (C5) *)

Section UpdateAbsent.

Context {doc : Type} `{!JSON doc}.

(** C5. [UpdateItemQuantity] with a quantity of at least 1 and a non-empty
    sku, on a cart that has no entry for the sku and a store that answers
    the read, returns [ErrItemNotFound]; the only call made is the [HGet],
    so the catalog is not consulted and the result is the same whatever the
    catalog would answer; nothing is written. *)
Theorem update_absent_item_not_found (c : cart.ShoppingCart)
    (userID quantity : Z) (sku : string) (w : world doc) :
  1 <= quantity ->
  sku <> "" ->
  next_outage w = None ->
  hash_at w (cart.cartKey userID) !! sku = None ->
  run (cart.UpdateItemQuantity c userID quantity sku) w
  = ((None, Some ErrItemNotFound), pop_outage w,
     [Event (HGet (cart.cartKey userID) sku) (Fail redis_Nil)]).
Proof.
  intros Hq Hsku Hup Habs.
  unfold cart.UpdateItemQuantity.
  replace (quantity <=? 0) with false by (symmetry; apply Z.leb_gt; lia).
  apply String.eqb_neq in Hsku. rewrite Hsku.
  cbn [bind perform]. rewrite run_Vis.
  rewrite serve_store_up by first [reflexivity | exact Hup].
  cbn [respond]. rewrite hash_at_pop_outage, Habs. reflexivity.
Qed.

End UpdateAbsent.

Lemma update_absent_item_not_found_witness :
  (1 <= 3) /\ "SKU-1" <> "" /\
  next_outage sample.empty_world = None /\
  hash_at sample.empty_world (cart.cartKey 7) !! "SKU-1" = None /\
  run (cart.UpdateItemQuantity sample.shop 7 3 "SKU-1") sample.empty_world
  = ((None, Some ErrItemNotFound), pop_outage sample.empty_world,
     [Event (HGet (cart.cartKey 7) "SKU-1") (Fail redis_Nil)]).
Proof.
  assert (H1 : 1 <= 3) by lia.
  assert (H2 : "SKU-1" <> "") by discriminate.
  assert (H3 : next_outage sample.empty_world = None) by reflexivity.
  assert (H4 : hash_at sample.empty_world (cart.cartKey 7) !! "SKU-1" = None)
    by (vm_compute; reflexivity).
  split; [exact H1 |]. split; [exact H2 |]. split; [exact H3 |]. split; [exact H4 |].
  exact (update_absent_item_not_found sample.shop 7 3 "SKU-1" sample.empty_world H1 H2 H3 H4).
Defined.

(** ** Insufficient stock (C10) *)

Section InsufficientStock.

Context {doc : Type} `{!JSON doc}.

(** C10. Whenever the catalog, consulted during [AddItem] or
    [UpdateItemQuantity], reports a stock strictly below the requested
    quantity, the method returns [ErrInsufficientStock], it has issued no
    write command to the store, and the keyspace (every hash with all its
    fields) and the armed expiries are what they were before the call. *)
Theorem insufficient_stock_no_write (m : mutator) (c : cart.ShoppingCart)
    (userID quantity : Z) (sku : string) (w : world doc)
    (p : product.GetProductBySKUResponse) :
  In (Some (OK p)) (map catalog_answer (trace_of (run (mutate m c userID quantity sku) w))) ->
  product.GetStockQuantity (product.GetProduct p) < quantity ->
  result_of (run (mutate m c userID quantity sku) w) = (None, Some ErrInsufficientStock)
  /\ hashes (world_of (run (mutate m c userID quantity sku) w)) = hashes w
  /\ expiry (world_of (run (mutate m c userID quantity sku) w)) = expiry w
  /\ existsb event_is_write (trace_of (run (mutate m c userID quantity sku) w)) = false.
Proof.
  intros Hin Hlt. revert Hin.
  destruct m; unfold mutate, cart.AddItem, cart.UpdateItemQuantity; symbex;
    intros Hin; repeat (destruct Hin as [Hin | Hin]); try contradiction; simplify_eq;
    try (exfalso;
         match goal with
         | Hs : (_ <? _) = false |- _ => apply Z.ltb_ge in Hs; lia
         end);
    repeat split.
Qed.

End InsufficientStock.

Lemma insufficient_stock_no_write_witness :
  let p := {| product.Product_ptr := Some (sample.widget 10%float 100) |} in
  let r := run (mutate Update sample.shop 7 500 "SKU-1") sample.cart_world in
  In (Some (OK p)) (map catalog_answer (trace_of r))
  /\ product.GetStockQuantity (product.GetProduct p) < 500
  /\ result_of r = (None, Some ErrInsufficientStock)
  /\ hashes (world_of r) = hashes sample.cart_world
  /\ expiry (world_of r) = expiry sample.cart_world
  /\ existsb event_is_write (trace_of r) = false.
Proof.
  intros p r.
  assert (H1 : In (Some (OK p)) (map catalog_answer (trace_of r)))
    by (vm_compute; right; left; reflexivity).
  assert (H2 : product.GetStockQuantity (product.GetProduct p) < 500)
    by (vm_compute; reflexivity).
  split; [exact H1 |]. split; [exact H2 |].
  exact (insufficient_stock_no_write Update sample.shop 7 500 "SKU-1" sample.cart_world p H1 H2).
Defined.

(** ** What a successful mutation has done *)

Section Mutations.

Context {doc : Type} `{!JSON doc}.

Lemma hash_at_insert (w : world doc) (key : string) (h : gmap string doc)
    (e : gmap string Z) :
  hash_at (set_store w (<[key := h]> (hashes w)) e) key = h.
Proof. unfold hash_at. cbn [hashes set_store]. rewrite lookup_insert_eq. reflexivity. Qed.

Ltac symbex_store :=
  run_cbn; repeat (first [rewrite lookup_insert_eq | split_test]; run_cbn).

(** A successful [AddItem]: the catalog knew the product with enough stock,
    the entry built from its answer was encoded and put under the sku, and
    the expiry was armed. *)
Lemma AddItem_success (c : cart.ShoppingCart) (userID quantity : Z) (sku : string)
    (w : world doc) (item : Item) :
  result_of (run (cart.AddItem c userID quantity sku) w) = (Some item, None) ->
  exists (p : product.GetProductBySKUResponse) (pr : product.Product) (d : doc),
    catalog w sku = OK p
    /\ product.Product_ptr p = Some pr
    /\ 0 < quantity <= product.StockQuantity pr
    /\ sku <> ""
    /\ item = {| Quantity := quantity;
                 Price := product.Price pr;
                 Name := product.Name pr;
                 ImageURL := product.ImageUrl pr;
                 ItemTotalPrice := PrimFloat.mul (float64_of_int32 quantity) (product.Price pr) |}
    /\ json_Marshal item = OK d
    /\ hashes (world_of (run (cart.AddItem c userID quantity sku) w))
       = (if formatSec (time_Duration_mul (cart.ttl c) time_Second) <=? 0
          then delete (cart.cartKey userID) (hashes w)
          else <[cart.cartKey userID := <[sku := d]> (hash_at w (cart.cartKey userID))]>
                 (hashes w))
    /\ expiry (world_of (run (cart.AddItem c userID quantity sku) w))
       = (if formatSec (time_Duration_mul (cart.ttl c) time_Second) <=? 0
          then delete (cart.cartKey userID) (expiry w)
          else <[cart.cartKey userID := formatSec (time_Duration_mul (cart.ttl c) time_Second)]>
                 (expiry w))
    /\ catalog (world_of (run (cart.AddItem c userID quantity sku) w)) = catalog w.
Proof.
  unfold cart.AddItem. symbex_store; intros Hok; simplify_eq.
  all: match goal with
       | Hs : (product.GetStockQuantity _ <? _) = false,
         Hp : product.Product_ptr _ = Some _ |- _ =>
           apply Z.ltb_ge in Hs; unfold product.GetProduct in Hs; rewrite Hp in Hs;
           cbn [product.GetStockQuantity] in Hs
       end.
  all: match goal with
       | Hq : (_ <=? 0) = false |- _ => apply Z.leb_gt in Hq
       end.
  all: match goal with
       | Hk : String.eqb _ _ = false |- _ => apply String.eqb_neq in Hk
       end.
  all: rewrite ?delete_insert_eq.
  all: eexists _, _, _; repeat split; eauto; lia.
Qed.

(** A successful [UpdateItemQuantity]: the sku had a stored value that
    decoded, the catalog answered with enough stock, and what was put back
    under the sku is the decoded entry with its quantity replaced. *)
Lemma UpdateItemQuantity_success (c : cart.ShoppingCart) (userID quantity : Z)
    (sku : string) (w : world doc) (item : Item) :
  result_of (run (cart.UpdateItemQuantity c userID quantity sku) w) = (Some item, None) ->
  exists (old d : doc) (item0 : Item) (p : product.GetProductBySKUResponse),
    hash_at w (cart.cartKey userID) !! sku = Some old
    /\ json_Unmarshal old = OK item0
    /\ catalog w sku = OK p
    /\ 0 < quantity <= product.GetStockQuantity (product.GetProduct p)
    /\ item = cart.set_Quantity item0 quantity
    /\ json_Marshal item = OK d
    /\ hashes (world_of (run (cart.UpdateItemQuantity c userID quantity sku) w))
       = (if formatSec (time_Duration_mul (cart.ttl c) time_Second) <=? 0
          then delete (cart.cartKey userID) (hashes w)
          else <[cart.cartKey userID := <[sku := d]> (hash_at w (cart.cartKey userID))]>
                 (hashes w))
    /\ expiry (world_of (run (cart.UpdateItemQuantity c userID quantity sku) w))
       = (if formatSec (time_Duration_mul (cart.ttl c) time_Second) <=? 0
          then delete (cart.cartKey userID) (expiry w)
          else <[cart.cartKey userID := formatSec (time_Duration_mul (cart.ttl c) time_Second)]>
                 (expiry w)).
Proof.
  unfold cart.UpdateItemQuantity. symbex_store; intros Hok; simplify_eq.
  all: match goal with
       | Hs : (product.GetStockQuantity _ <? _) = false |- _ => apply Z.ltb_ge in Hs
       end.
  all: match goal with
       | Hq : (_ <=? 0) = false |- _ => apply Z.leb_gt in Hq
       end.
  all: rewrite ?delete_insert_eq.
  all: eexists _, _, _, _; repeat split; eauto; lia.
Qed.

(** The entry built by [AddItem] has a line total computed from its own
    quantity and price. *)
Lemma AddItem_line_total (c : cart.ShoppingCart) (userID quantity : Z) (sku : string)
    (w : world doc) (item : Item) :
  result_of (run (cart.AddItem c userID quantity sku) w) = (Some item, None) ->
  ItemTotalPrice item = PrimFloat.mul (float64_of_int32 (Quantity item)) (Price item).
Proof.
  intros Hok.
  apply AddItem_success in Hok as (p & pr & d & _ & _ & _ & _ & -> & _).
  reflexivity.
Qed.

End Mutations.

(** ** Expiry of the cart key (C9) *)

(** Within the range of [int64] the product is exact: [ttl] seconds. *)
Lemma time_Duration_mul_exact (d unit : Z) :
  - 2 ^ 63 <= d * unit < 2 ^ 63 -> time_Duration_mul d unit = d * unit.
Proof.
  intros Hr. unfold time_Duration_mul, wrap64, wrap.
  rewrite Z.mod_small by lia. lia.
Qed.

Section Expiry.

Context {doc : Type} `{!JSON doc}.

(** C9 (as the code has it).  When the configured [ttl] is positive and
    [ttl] seconds fit in a [time.Duration] (an [int64] of nanoseconds), a
    successful [AddItem] or [UpdateItemQuantity] leaves the user's cart key
    armed with exactly [ttl] seconds.  [GetCart] leaves every expiry as it
    was; after [RemoveItem] and [ClearCart] every expiry that is armed was
    armed with the same time to live before (a deleted key loses its
    expiry); none of the three issues an [Expire]. *)
Theorem expiry_set_by_mutations_only (c : cart.ShoppingCart) (userID quantity : Z)
    (sku : string) (w : world doc) :
  (forall (m : mutator) (item : Item),
     0 < cart.ttl c ->
     cart.ttl c * time_Second < 2 ^ 63 ->
     result_of (run (mutate m c userID quantity sku) w) = (Some item, None) ->
     expiry (world_of (run (mutate m c userID quantity sku) w)) !! cart.cartKey userID
     = Some (cart.ttl c))
  /\ (expiry (world_of (run (cart.GetCart c userID) w)) = expiry w
      /\ existsb event_is_Expire (trace_of (run (cart.GetCart c userID) w)) = false)
  /\ (expiry (world_of (run (cart.RemoveItem c userID sku) w)) ⊆ expiry w
      /\ existsb event_is_Expire (trace_of (run (cart.RemoveItem c userID sku) w)) = false)
  /\ (expiry (world_of (run (cart.ClearCart c userID) w)) ⊆ expiry w
      /\ existsb event_is_Expire (trace_of (run (cart.ClearCart c userID) w)) = false).
Proof.
  split; [| split; [| split]].
  - intros m item Hpos Hfit Hok.
    pose proof (formatSec_seconds (cart.ttl c) Hpos Hfit) as Hsec.
    assert (Hkeep : (formatSec (time_Duration_mul (cart.ttl c) time_Second) <=? 0) = false)
      by (rewrite Hsec; apply Z.leb_gt; exact Hpos).
    destruct m; cbn [mutate] in *.
    + apply AddItem_success in Hok as (p & pr & d & _ & _ & _ & _ & _ & _ & _ & He & _).
      rewrite He, Hkeep, Hsec. apply lookup_insert_eq.
    + apply UpdateItemQuantity_success in Hok as (old & d & i0 & p & _ & _ & _ & _ & _ & _ & _ & He).
      rewrite He, Hkeep, Hsec. apply lookup_insert_eq.
  - unfold cart.GetCart. symbex; split; reflexivity.
  - unfold cart.RemoveItem. symbex; split;
      first [reflexivity | apply delete_subseteq].
  - unfold cart.ClearCart. symbex; split;
      first [reflexivity | apply delete_subseteq].
Qed.

End Expiry.

Lemma expiry_set_by_mutations_only_witness :
  let r := run (mutate Add sample.shop 7 2 "SKU-1") sample.empty_world in
  let r' := run (mutate Update sample.shop 7 5 "SKU-1") sample.unarmed_world in
  0 < cart.ttl sample.shop
  /\ cart.ttl sample.shop * time_Second < 2 ^ 63
  /\ result_of r = (Some {| Quantity := 2; Price := 10%float; Name := "Widget";
                            ImageURL := "https://img.example/widget.png";
                            ItemTotalPrice := 20%float |}, None)
  /\ expiry (world_of r) !! cart.cartKey 7 = Some 1800
  /\ expiry sample.unarmed_world !! cart.cartKey 7 = None
  /\ result_of r' = (Some {| Quantity := 5; Price := 10%float; Name := "Widget";
                             ImageURL := "https://img.example/widget.png";
                             ItemTotalPrice := 20%float |}, None)
  /\ expiry (world_of r') !! cart.cartKey 7 = Some 1800.
Proof.
  intros r r'.
  assert (H0 : 0 < cart.ttl sample.shop) by reflexivity.
  assert (H0' : cart.ttl sample.shop * time_Second < 2 ^ 63) by reflexivity.
  assert (H1 : result_of r
               = (Some {| Quantity := 2; Price := 10%float; Name := "Widget";
                          ImageURL := "https://img.example/widget.png";
                          ItemTotalPrice := 20%float |}, None))
    by (vm_compute; reflexivity).
  assert (H2 : result_of r'
               = (Some {| Quantity := 5; Price := 10%float; Name := "Widget";
                          ImageURL := "https://img.example/widget.png";
                          ItemTotalPrice := 20%float |}, None))
    by (vm_compute; reflexivity).
  split; [exact H0 |]. split; [exact H0' |]. split; [exact H1 |].
  split; [exact (proj1 (expiry_set_by_mutations_only sample.shop 7 2 "SKU-1"
                          sample.empty_world) Add _ H0 H0' H1) |].
  split; [reflexivity |]. split; [exact H2 |].
  exact (proj1 (expiry_set_by_mutations_only sample.shop 7 5 "SKU-1" sample.unarmed_world)
           Update _ H0 H0' H2).
Defined.

(** Against C9 as stated: the service is configured with an idle window of
    9223372037 seconds, whose count of nanoseconds no longer fits in an
    [int64]; the product wraps to a negative duration and the [EXPIRE] that
    follows the [HSet] deletes the key.  [AddItem] succeeds and the user's
    cart key carries no expiry (it does not even exist).  The same happens
    with an idle window of 0 seconds. *)
Lemma expiry_not_armed_by_wrapped_window :
  let r := run (cart.AddItem (cart.New 9223372037) 7 2 "SKU-1") sample.empty_world in
  let r0 := run (cart.AddItem (cart.New 0) 7 2 "SKU-1") sample.empty_world in
  time_Duration_mul 9223372037 time_Second = -9223372036709551616
  /\ (exists item : Item, result_of r = (Some item, None))
  /\ expiry (world_of r) !! cart.cartKey 7 = None
  /\ hashes (world_of r) !! cart.cartKey 7 = None
  /\ (exists item : Item, result_of r0 = (Some item, None))
  /\ expiry (world_of r0) !! cart.cartKey 7 = None.
Proof.
  intros r r0.
  split; [vm_compute; reflexivity |].
  split; [eexists; vm_compute; reflexivity |].
  split; [vm_compute; reflexivity |].
  split; [vm_compute; reflexivity |].
  split; [eexists; vm_compute; reflexivity |].
  vm_compute; reflexivity.
Qed.

(** ** Adding the same item twice (C6) *)

Section Overwrite.

Context {doc : Type} `{!JSON doc}.


End Overwrite.


(** ** What [UpdateItemQuantity] persists (C1, C2) *)

Section UpdatePersists.

Context {doc : Type} `{!JSON doc}.


End UpdatePersists.



(** C2 (where the code departs from it).  User 7 holds two widgets at 10.00,
    line total 20.00.  [UpdateItemQuantity] to quantity 5 succeeds; the
    entry it returns and stores has quantity 5, price 10.00 and still the
    line total 20.00, while 5 x 10.00 is 50.00: the total is not recomputed
    from the new quantity. *)
Theorem UpdateItemQuantity_stale_line_total :
  let r := run (cart.UpdateItemQuantity sample.shop 7 5 "SKU-1") sample.cart_world in
  let stored := {| Quantity := 5; Price := 10%float; Name := "Widget";
                   ImageURL := "https://img.example/widget.png";
                   ItemTotalPrice := 20%float |} in
  result_of r = (Some stored, None)
  /\ hash_at (world_of r) (cart.cartKey 7) !! "SKU-1" = Some (sample.Encoded stored)
  /\ PrimFloat.mul (float64_of_int32 (Quantity stored)) (Price stored) = 50%float
  /\ PrimFloat.eqb (ItemTotalPrice stored)
       (PrimFloat.mul (float64_of_int32 (Quantity stored)) (Price stored)) = false.
Proof.
  intros r stored. repeat split; vm_compute; reflexivity.
Qed.

(** ** Reading the cart (C7, C8) *)

Section Reading.

Context {doc : Type} `{!JSON doc}.

Lemma wrap32_idemp_add (a b : Z) : wrap32 (wrap32 a + b) = wrap32 (a + b).
Proof.
  unfold wrap32, wrap.
  replace ((a + 2 ^ (32 - 1)) mod 2 ^ 32 - 2 ^ (32 - 1) + b + 2 ^ (32 - 1))
    with ((a + 2 ^ (32 - 1)) mod 2 ^ 32 + b) by lia.
  rewrite Zplus_mod_idemp_l. f_equal. f_equal. lia.
Qed.

Lemma wrap32_in_range (z : Z) : int32_range z -> wrap32 z = z.
Proof.
  unfold int32_range, wrap32, wrap. intros Hr.
  rewrite Z.mod_small by lia. lia.
Qed.

(** The loop on entries that all decode: it runs to the end. *)
Lemma GetCart_range_decoded (res : list (string * doc)) (items : list Item)
    (totalPrice : float) (totalItems : Z) :
  decode_all res = Some items ->
  cart.GetCart_range res totalPrice totalItems
  = inl (fold_left
           (fun acc i => PrimFloat.add acc
                           (PrimFloat.mul (Price i) (float64_of_int32 (Quantity i))))
           items totalPrice,
         fold_left (fun acc i => wrap32 (acc + Quantity i)) items totalItems).
Proof.
  revert items totalPrice totalItems.
  induction res as [| [field details] res IH]; intros items totalPrice totalItems Hdec.
  - injection Hdec as <-. reflexivity.
  - cbn [decode_all] in Hdec. cbn [cart.GetCart_range].
    destruct (json_Unmarshal details) as [i | err]; [| discriminate].
    destruct (decode_all res) as [items' |]; [| discriminate].
    injection Hdec as <-. cbn [fold_left]. apply IH. reflexivity.
Qed.

Lemma fold_wrap32_sum (items : list Item) (totalItems : Z) :
  wrap32 (fold_left (fun acc i => wrap32 (acc + Quantity i)) items totalItems)
  = wrap32 (totalItems + sum_quantities items).
Proof.
  revert totalItems. induction items as [| i items IH]; intros totalItems.
  - cbn. f_equal. lia.
  - cbn [fold_left sum_quantities fold_right]. rewrite IH.
    fold (sum_quantities items). rewrite wrap32_idemp_add. f_equal. lia.
Qed.

Lemma fold_wrap32_fixed (items : list Item) (totalItems : Z) :
  wrap32 totalItems = totalItems ->
  wrap32 (fold_left (fun acc i => wrap32 (acc + Quantity i)) items totalItems)
  = fold_left (fun acc i => wrap32 (acc + Quantity i)) items totalItems.
Proof.
  revert totalItems. induction items as [| i items IH]; intros totalItems Hfix.
  - exact Hfix.
  - cbn [fold_left]. apply IH.
    rewrite <- (Z.add_0_r (wrap32 (totalItems + Quantity i))) at 1.
    rewrite wrap32_idemp_add. f_equal. lia.
Qed.

Lemma ranged_Permutation (w : world doc) (h : gmap string doc) :
  ranged w h ≡ₚ map_to_list h.
Proof. unfold ranged. apply merge_sort_Permutation. Qed.

Lemma decode_all_Permutation (res res' : list (string * doc)) :
  res ≡ₚ res' ->
  forall items : list Item,
    decode_all res = Some items ->
    exists items' : list Item, decode_all res' = Some items' /\ items ≡ₚ items'.
Proof.
  induction 1 as [| [k d] l l' Hp IH | [k1 d1] [k2 d2] l | l1 l2 l3 Hp1 IH1 Hp2 IH2];
    intros items Hdec.
  - exists items. split; [exact Hdec | reflexivity].
  - cbn [decode_all] in *. destruct (json_Unmarshal d) as [i | err]; [| discriminate].
    destruct (decode_all l) as [rest |] eqn:Hl; [| discriminate].
    injection Hdec as <-.
    destruct (IH rest eq_refl) as (rest' & Hl' & Hperm).
    exists (i :: rest'). split; [rewrite Hl'; reflexivity | constructor; exact Hperm].
  - cbn [decode_all] in *.
    destruct (json_Unmarshal d1) as [i1 | err1], (json_Unmarshal d2) as [i2 | err2],
      (decode_all l) as [rest |]; try discriminate.
    injection Hdec as <-.
    eexists. split; [reflexivity | constructor].
  - destruct (IH1 items Hdec) as (items2 & Hdec2 & Hperm2).
    destruct (IH2 items2 Hdec2) as (items3 & Hdec3 & Hperm3).
    exists items3. split; [exact Hdec3 | etransitivity; eassumption].
Qed.

Lemma sum_quantities_Permutation (items items' : list Item) :
  items ≡ₚ items' -> sum_quantities items = sum_quantities items'.
Proof.
  unfold sum_quantities.
  induction 1 as [| i l l' Hp IH | i1 i2 l | l1 l2 l3 Hp1 IH1 Hp2 IH2];
    cbn [fold_right]; lia.
Qed.

Lemma GetCart_up (c : cart.ShoppingCart) (userID : Z) (w : world doc) :
  next_outage w = None ->
  result_of (run (cart.GetCart c userID) w)
  = match cart.GetCart_range (ranged w (hash_at w (cart.cartKey userID))) 0%float 0 with
    | inr err => (None, 0%float, 0, Some err)
    | inl (totalPrice, totalItems) =>
        (Some (ranged w (hash_at w (cart.cartKey userID))), totalPrice, totalItems, None)
    end.
Proof.
  intros Hup. unfold cart.GetCart. cbn [bind perform run].
  rewrite serve_store_up by first [reflexivity | exact Hup].
  cbn [respond]. rewrite hash_at_pop_outage.
  change (ranged (pop_outage w)) with (ranged w).
  destruct (cart.GetCart_range _ _ _) as [[totalPrice totalItems] | err]; reflexivity.
Qed.

(** C7 (as the code has it).  When the store answers the read and every
    stored value of the user's cart decodes, [GetCart] returns, with no
    error, the raw entries (a permutation of the cart, in the order in which
    the call ranged over the map), the [float64] sum of unit price times
    quantity accumulated from 0 in that order, and the sum of the quantities
    reduced to [int32]; this is the sum itself whenever the sum fits in an
    [int32].  A cart key that does not exist gives an empty (non-nil)
    collection and zero totals. *)
Theorem GetCart_totals (c : cart.ShoppingCart) (userID : Z) (w : world doc)
    (items : list Item) :
  next_outage w = None ->
  decode_all (map_to_list (hash_at w (cart.cartKey userID))) = Some items ->
  (exists (res : list (string * doc)) (visited : list Item),
     res ≡ₚ map_to_list (hash_at w (cart.cartKey userID))
     /\ decode_all res = Some visited
     /\ visited ≡ₚ items
     /\ result_of (run (cart.GetCart c userID) w)
        = (Some res, sum_line_totals visited, wrap32 (sum_quantities items), None)
     /\ (int32_range (sum_quantities items) ->
         result_of (run (cart.GetCart c userID) w)
         = (Some res, sum_line_totals visited, sum_quantities items, None)))
  /\ (hashes w !! cart.cartKey userID = None ->
      result_of (run (cart.GetCart c userID) w) = (Some [], 0%float, 0, None)).
Proof.
  intros Hup Hdec.
  pose proof (ranged_Permutation w (hash_at w (cart.cartKey userID))) as Hperm.
  destruct (decode_all_Permutation _ _ (symmetry Hperm) items Hdec)
    as (visited & Hvis & Hpv).
  assert (Hres : result_of (run (cart.GetCart c userID) w)
                 = (Some (ranged w (hash_at w (cart.cartKey userID))),
                    sum_line_totals visited, wrap32 (sum_quantities items), None)).
  { rewrite (GetCart_up c userID w Hup).
    rewrite (GetCart_range_decoded _ visited 0%float 0 Hvis).
    rewrite <- (fold_wrap32_fixed visited 0) by reflexivity.
    rewrite fold_wrap32_sum. cbn [Z.add].
    rewrite (sum_quantities_Permutation _ _ Hpv). reflexivity. }
  split.
  - exists (ranged w (hash_at w (cart.cartKey userID))), visited.
    split; [exact Hperm |]. split; [exact Hvis |].
    split; [symmetry; exact Hpv |]. split; [exact Hres |].
    intros Hr. rewrite Hres, (wrap32_in_range _ Hr). reflexivity.
  - intros Hnone. rewrite (GetCart_up c userID w Hup).
    unfold hash_at. rewrite Hnone. cbn [default from_option].
    unfold ranged. rewrite map_to_list_empty. reflexivity.
Qed.

(** The loop on entries one of which does not decode: it stops with the
    decoding error of such an entry. *)
Lemma GetCart_range_corrupt (res : list (string * doc)) (field : string) (d : doc)
    (err0 : error) (totalPrice : float) (totalItems : Z) :
  In (field, d) res ->
  json_Unmarshal d = Fail err0 ->
  exists (field' : string) (d' : doc) (err : error),
    In (field', d') res
    /\ json_Unmarshal d' = Fail err
    /\ cart.GetCart_range res totalPrice totalItems = inr err.
Proof.
  revert totalPrice totalItems.
  induction res as [| [field1 d1] res IH]; intros totalPrice totalItems Hin Hbad.
  - destruct Hin.
  - cbn [cart.GetCart_range].
    destruct (json_Unmarshal d1) as [i | err] eqn:Hd1.
    + destruct Hin as [Heq | Hin]; [injection Heq as -> ->; congruence |].
      edestruct IH as (field' & d' & err & Hin' & Hbad' & Hrun); [exact Hin | exact Hbad |].
      exists field', d', err. split; [right; exact Hin' |]. split; [exact Hbad' | exact Hrun].
    + exists field1, d1, err. split; [left; reflexivity |]. split; [exact Hd1 | reflexivity].
Qed.

(** C8. When the store answers the read and some stored value of the user's
    cart does not decode, [GetCart] returns the decoding error of a stored
    value together with a nil collection and zero totals: nothing of the
    entries that did decode is returned. *)
Theorem GetCart_corrupt_entry (c : cart.ShoppingCart) (userID : Z) (w : world doc)
    (field : string) (d : doc) (err0 : error) :
  next_outage w = None ->
  hash_at w (cart.cartKey userID) !! field = Some d ->
  json_Unmarshal d = Fail err0 ->
  exists (field' : string) (d' : doc) (err : error),
    hash_at w (cart.cartKey userID) !! field' = Some d'
    /\ json_Unmarshal d' = Fail err
    /\ result_of (run (cart.GetCart c userID) w) = (None, 0%float, 0, Some err).
Proof.
  intros Hup Hd Hbad.
  apply elem_of_map_to_list in Hd.
  rewrite <- (ranged_Permutation w) in Hd. apply list_elem_of_In in Hd.
  destruct (GetCart_range_corrupt _ field d err0 0%float 0 Hd Hbad)
    as (field' & d' & err & Hin & Hbad' & Hrun).
  exists field', d', err.
  apply list_elem_of_In in Hin. rewrite (ranged_Permutation w) in Hin.
  split; [apply elem_of_map_to_list; exact Hin |].
  split; [exact Hbad' |].
  rewrite (GetCart_up c userID w Hup), Hrun. reflexivity.
Qed.

End Reading.

Lemma GetCart_totals_witness :
  let w := sample.coins_world sample.backwards in
  let items := default [] (decode_all (map_to_list (hash_at w (cart.cartKey 7)))) in
  length items = 3%nat
  /\ next_outage w = None
  /\ decode_all (map_to_list (hash_at w (cart.cartKey 7))) = Some items
  /\ exists (res : list (string * sample.text)) (visited : list Item),
       res ≡ₚ map_to_list (hash_at w (cart.cartKey 7))
       /\ decode_all res = Some visited
       /\ visited ≡ₚ items
       /\ result_of (run (cart.GetCart sample.shop 7) w)
          = (Some res, sum_line_totals visited, wrap32 (sum_quantities items), None)
       /\ (int32_range (sum_quantities items) ->
           result_of (run (cart.GetCart sample.shop 7) w)
           = (Some res, sum_line_totals visited, sum_quantities items, None)).
Proof.
  intros w items.
  assert (H1 : next_outage w = None) by reflexivity.
  assert (H2 : decode_all (map_to_list (hash_at w (cart.cartKey 7))) = Some items)
    by (vm_compute; reflexivity).
  split; [vm_compute; reflexivity |]. split; [exact H1 |]. split; [exact H2 |].
  exact (proj1 (GetCart_totals sample.shop 7 w items H1 H2)).
Defined.

(** The same cart read twice, the map ranged over forwards and backwards:
    the entries come in opposite orders, the item count is 3 both times, and
    the two total prices are different [float64] values. *)
Example GetCart_total_price_follows_the_range :
  let sum3 (a b c : float) :=
    PrimFloat.add (PrimFloat.add (PrimFloat.add 0%float a) b) c in
  let entry (sku : string) (price : float) := (sku, sample.Encoded (sample.coin price)) in
  hashes (sample.coins_world sample.forwards) = hashes (sample.coins_world sample.backwards)
  /\ result_of (run (cart.GetCart sample.shop 7) (sample.coins_world sample.forwards))
     = (Some [entry "A" sample.p01; entry "B" sample.p02; entry "C" sample.p03],
        sum3 sample.p01 sample.p02 sample.p03, 3, None)
  /\ result_of (run (cart.GetCart sample.shop 7) (sample.coins_world sample.backwards))
     = (Some [entry "C" sample.p03; entry "B" sample.p02; entry "A" sample.p01],
        sum3 sample.p03 sample.p02 sample.p01, 3, None)
  /\ PrimFloat.eqb (sum3 sample.p01 sample.p02 sample.p03) (sum3 sample.p03 sample.p02 sample.p01)
     = false.
Proof.
  intros sum3 entry. repeat split; vm_compute; reflexivity.
Qed.

(** Against C7 as stated: user 7 has added 2147483647 of one sku and 1 of
    another (the catalog has the stock).  Both stored values decode, the sum
    of the quantities is 2147483648, and [GetCart] succeeds with a total
    item count of -2147483648. *)
Lemma GetCart_item_count_wraps :
  exists (items : list Item) (res : list (string * sample.text)) (totalPrice : float)
         (totalItems : Z),
    decode_all (map_to_list (hash_at sample.bulk_world (cart.cartKey 7))) = Some items
    /\ result_of (run (cart.GetCart sample.shop 7) sample.bulk_world)
       = (Some res, totalPrice, totalItems, None)
    /\ sum_quantities items = 2147483648
    /\ totalItems = -2147483648
    /\ totalItems <> sum_quantities items.
Proof.
  eexists _, _, _, _.
  split; [vm_compute; reflexivity |].
  split; [vm_compute; reflexivity |].
  split; [vm_compute; reflexivity |].
  split; [reflexivity |].
  vm_compute. discriminate.
Qed.

Lemma GetCart_corrupt_entry_witness :
  next_outage sample.corrupt_world = None
  /\ hash_at sample.corrupt_world (cart.cartKey 7) !! "SKU-1" = Some (sample.Malformed "{oops")
  /\ json_Unmarshal (sample.Malformed "{oops") = Fail (JSONError "json: cannot unmarshal")
  /\ exists (field' : string) (d' : sample.text) (err : error),
       hash_at sample.corrupt_world (cart.cartKey 7) !! field' = Some d'
       /\ json_Unmarshal d' = Fail err
       /\ result_of (run (cart.GetCart sample.shop 7) sample.corrupt_world)
          = (None, 0%float, 0, Some err).
Proof.
  assert (H1 : next_outage sample.corrupt_world = None) by reflexivity.
  assert (H2 : hash_at sample.corrupt_world (cart.cartKey 7) !! "SKU-1"
               = Some (sample.Malformed "{oops")) by (vm_compute; reflexivity).
  assert (H3 : json_Unmarshal (sample.Malformed "{oops")
               = Fail (JSONError "json: cannot unmarshal")) by reflexivity.
  split; [exact H1 |]. split; [exact H2 |]. split; [exact H3 |].
  exact (GetCart_corrupt_entry sample.shop 7 sample.corrupt_world "SKU-1"
           (sample.Malformed "{oops") _ H1 H2 H3).
Defined.

(** ** Store failures (C3) *)

Section StoreFailures.

Context {doc : Type} `{!JSON doc}.

Lemma is_redis_Nil_true (err : error) : is_redis_Nil err = true -> err = redis_Nil.
Proof. destruct err; intros E; first [reflexivity | discriminate E]. Qed.

(** C3 (as the code has it).  In [AddItem] and [UpdateItemQuantity] a store
    command that fails makes the method return no item and a non-nil error:
    the store's error itself, or [ErrItemNotFound] when that error is
    [redis.Nil].  In [GetCart] it makes the method return the store's error
    with a nil collection and zero totals.  [RemoveItem] and [ClearCart]
    have no error result, and their handlers in package [server] answer
    with success whatever the store did. *)
Theorem store_failure_returned (c : cart.ShoppingCart) (userID quantity : Z)
    (sku : string) (w : world doc) :
  (forall (m : mutator) (err : error),
     In (Some err) (map store_failure (trace_of (run (mutate m c userID quantity sku) w))) ->
     exists e : error,
       result_of (run (mutate m c userID quantity sku) w) = (None, Some e)
       /\ (e = err \/ (err = redis_Nil /\ e = ErrItemNotFound)))
  /\ (forall err : error,
        In (Some err) (map store_failure (trace_of (run (cart.GetCart c userID) w))) ->
        result_of (run (cart.GetCart c userID) w) = (None, 0%float, 0, Some err))
  /\ result_of (run (server.RemoveItem {| server.Cart := c |} (Some userID) sku) w)
     = (Some tt, None)
  /\ result_of (run (server.ClearCart {| server.Cart := c |} (Some userID)) w)
     = (Some tt, None).
Proof.
  split; [| split; [| split]].
  - intros m err. destruct m; unfold mutate, cart.AddItem, cart.UpdateItemQuantity;
      symbex; intros Hin; repeat (destruct Hin as [Hin | Hin]);
      try contradiction; simplify_eq;
      try (match goal with
           | Hn : is_redis_Nil _ = true |- _ => apply is_redis_Nil_true in Hn; subst
           end);
      eexists; split; first [reflexivity | left; reflexivity | right; split; reflexivity].
  - intros err. unfold cart.GetCart.
    symbex; intros Hin; repeat (destruct Hin as [Hin | Hin]);
      try contradiction; simplify_eq; reflexivity.
  - unfold server.RemoveItem, cart.RemoveItem. symbex; reflexivity.
  - unfold server.ClearCart, cart.ClearCart. symbex; reflexivity.
Qed.

End StoreFailures.

Lemma store_failure_returned_witness :
  let err := RedisError "dial tcp: connection refused" in
  let r := run (mutate Add sample.shop 7 2 "SKU-1") sample.store_down_world in
  In (Some err) (map store_failure (trace_of r))
  /\ exists e : error,
       result_of r = (None, Some e)
       /\ (e = err \/ (err = redis_Nil /\ e = ErrItemNotFound)).
Proof.
  intros err r.
  assert (H1 : In (Some err) (map store_failure (trace_of r)))
    by (vm_compute; right; left; reflexivity).
  split; [exact H1 |].
  exact (proj1 (store_failure_returned sample.shop 7 2 "SKU-1" sample.store_down_world)
           Add err H1).
Defined.

(** Against C3 as stated: the store refuses the [HDel] of [RemoveItem].  The
    command's failure is in the trace, the entry is still in the cart, and
    the caller gets a successful response with no error. *)
Lemma RemoveItem_discards_store_failure :
  let r := run (server.RemoveItem {| server.Cart := sample.shop |} (Some 7) "SKU-1")
             sample.store_down_world in
  map store_failure (trace_of r) = [Some (RedisError "dial tcp: connection refused")]
  /\ result_of r = (Some tt, None)
  /\ result_of (run (cart.RemoveItem sample.shop 7 "SKU-1") sample.store_down_world) = tt
  /\ hashes (world_of r) = hashes sample.store_down_world
  /\ is_Some (hash_at (world_of r) (cart.cartKey 7) !! "SKU-1").
Proof.
  intros r.
  split; [vm_compute; reflexivity |].
  split; [vm_compute; reflexivity |].
  split; [vm_compute; reflexivity |].
  split; [vm_compute; reflexivity |].
  vm_compute. eexists. reflexivity.
Qed.

(** ** A session, end to end *)

(** User 7 starts without a cart, adds two widgets, reads the cart, sets the
    quantity to five, removes the item and reads again. *)
Example session_on_the_sample_store :
  let w1 := world_of (run (cart.AddItem sample.shop 7 2 "SKU-1") sample.empty_world) in
  let w2 := world_of (run (cart.UpdateItemQuantity sample.shop 7 5 "SKU-1") w1) in
  let w3 := world_of (run (cart.RemoveItem sample.shop 7 "SKU-1") w2) in
  let added := {| Quantity := 2; Price := 10%float; Name := "Widget";
                  ImageURL := "https://img.example/widget.png";
                  ItemTotalPrice := 20%float |} in
  result_of (run (cart.GetCart sample.shop 7) w1)
  = (Some [("SKU-1", sample.Encoded added)], 20%float, 2, None)
  /\ result_of (run (cart.GetCart sample.shop 7) w2)
     = (Some [("SKU-1", sample.Encoded (cart.set_Quantity added 5))], 50%float, 5, None)
  /\ hashes w3 = ∅
  /\ expiry w3 = ∅
  /\ result_of (run (cart.GetCart sample.shop 7) w3) = (Some [], 0%float, 0, None).
Proof.
  repeat split; vm_compute; reflexivity.
Qed.

(** * Further properties of the cart manager *)

(** ** Composition of programs *)

Section BindFacts.

Context {doc : Type}.

Lemma run_bind {B C : Type} (p : prog doc B) (f : B -> prog doc C) (w : world doc) :
  run (bind p f) w
  = (result_of (run (f (result_of (run p w))) (world_of (run p w))),
     world_of (run (f (result_of (run p w))) (world_of (run p w))),
     (trace_of (run p w)
      ++ trace_of (run (f (result_of (run p w))) (world_of (run p w))))%list).
Proof.
  revert w. induction p as [b | A c k IH]; intros w.
  - cbn [bind run result_of world_of trace_of fst snd app].
    destruct (run (f b) w) as [[x w'] tr]. reflexivity.
  - cbn [bind run]. destruct (serve c w) as [r w1].
    rewrite IH. destruct (run (k r) w1) as [[b w2] tr]. reflexivity.
Qed.

End BindFacts.

(** ** Validation and catalog outcomes *)

Section Validation.

Context {doc : Type} `{!JSON doc}.

(** X1. With a quantity of at least 1 and an empty sku, both mutations
    return [ErrInvalidSKU] without any call. *)
Theorem empty_sku_no_effect (m : mutator) (c : cart.ShoppingCart)
    (userID quantity : Z) (w : world doc) :
  1 <= quantity ->
  run (mutate m c userID quantity "") w = ((None, Some ErrInvalidSKU), w, []).
Proof.
  intros Hq.
  destruct m; unfold mutate, cart.AddItem, cart.UpdateItemQuantity;
    replace (quantity <=? 0) with false by (symmetry; apply Z.leb_gt; lia);
    reflexivity.
Qed.

(** X2. When the catalog lookup made by a mutation fails, the mutation
    returns [ErrProductNotFound] if the failure has status code NotFound and
    the catalog's error itself otherwise; nothing has been written. *)
Theorem catalog_failure_outcome (m : mutator) (c : cart.ShoppingCart)
    (userID quantity : Z) (sku : string) (w : world doc) (err : error) :
  In (Some (Fail err)) (map catalog_answer (trace_of (run (mutate m c userID quantity sku) w))) ->
  result_of (run (mutate m c userID quantity sku) w)
  = (None, Some (if status_Code err =? codes_NotFound then ErrProductNotFound else err))
  /\ hashes (world_of (run (mutate m c userID quantity sku) w)) = hashes w
  /\ expiry (world_of (run (mutate m c userID quantity sku) w)) = expiry w
  /\ existsb event_is_write (trace_of (run (mutate m c userID quantity sku) w)) = false.
Proof.
  destruct m; unfold mutate, cart.AddItem, cart.UpdateItemQuantity; symbex;
    intros Hin; repeat (destruct Hin as [Hin | Hin]); try contradiction; simplify_eq;
    try congruence; repeat split.
Qed.

(** X3. A catalog answer that carries no product is treated as out of
    stock: the mutation returns [ErrInsufficientStock], the missing product
    is never dereferenced, and nothing has been written. *)
Theorem missing_product_is_out_of_stock (m : mutator) (c : cart.ShoppingCart)
    (userID quantity : Z) (sku : string) (w : world doc)
    (p : product.GetProductBySKUResponse) :
  In (Some (OK p)) (map catalog_answer (trace_of (run (mutate m c userID quantity sku) w))) ->
  product.Product_ptr p = None ->
  result_of (run (mutate m c userID quantity sku) w) = (None, Some ErrInsufficientStock)
  /\ hashes (world_of (run (mutate m c userID quantity sku) w)) = hashes w
  /\ expiry (world_of (run (mutate m c userID quantity sku) w)) = expiry w.
Proof.
  intros Hin Hnil. revert Hin.
  destruct m; unfold mutate, cart.AddItem, cart.UpdateItemQuantity; symbex;
    intros Hin; repeat (destruct Hin as [Hin | Hin]); try contradiction; simplify_eq;
    try (exfalso;
         match goal with
         | Hs : (product.GetStockQuantity (product.GetProduct ?a) <? _) = false,
           Hq : (_ <=? 0) = false |- _ =>
             unfold product.GetProduct in Hs; rewrite Hnil in Hs;
             cbn [product.GetStockQuantity] in Hs;
             apply Z.ltb_ge in Hs; apply Z.leb_gt in Hq; lia
         end);
    repeat split.
Qed.

End Validation.

(** ** What a mutation stores, and where *)

Section MutationEffect.

Context {doc : Type} `{!JSON doc}.

Lemma hash_at_hashes (w w' : world doc) (key : string) :
  hashes w' = hashes w -> hash_at w' key = hash_at w key.
Proof. unfold hash_at. intros ->. reflexivity. Qed.

Lemma hash_at_inserted (w w' : world doc) (key : string) (h : gmap string doc) :
  hashes w' = <[key := h]> (hashes w) -> hash_at w' key = h.
Proof. unfold hash_at. intros ->. rewrite lookup_insert_eq. reflexivity. Qed.

(** X4. With a positive idle window, a successful mutation changes the
    user's cart in one field only: the sku now holds a value that decodes to
    the returned item, whose quantity is the requested one and is at least
    1; every other entry of the cart is as before. *)
Theorem mutation_stores_one_entry (m : mutator) (c : cart.ShoppingCart)
    (userID quantity : Z) (sku : string) (w : world doc) (item : Item) :
  0 < time_Duration_mul (cart.ttl c) time_Second ->
  result_of (run (mutate m c userID quantity sku) w) = (Some item, None) ->
  exists d : doc,
    json_Unmarshal d = OK item
    /\ hash_at (world_of (run (mutate m c userID quantity sku) w)) (cart.cartKey userID)
       = <[sku := d]> (hash_at w (cart.cartKey userID))
    /\ Quantity item = quantity
    /\ 1 <= quantity.
Proof.
  intros Hpos Hok. destruct m; cbn [mutate] in *.
  - apply AddItem_success in Hok
      as (p & pr & d & _ & _ & Hq & _ & Hi & Hm & Hh & _).
    rewrite (formatSec_keeps _ Hpos) in Hh.
    exists d. split; [apply json_roundtrip; exact Hm |].
    split; [exact (hash_at_inserted _ _ _ _ Hh) |].
    split; [rewrite Hi; reflexivity | lia].
  - apply UpdateItemQuantity_success in Hok
      as (old & d & item0 & p & _ & _ & _ & Hq & Hi & Hm & Hh & _).
    rewrite (formatSec_keeps _ Hpos) in Hh.
    exists d. split; [apply json_roundtrip; exact Hm |].
    split; [exact (hash_at_inserted _ _ _ _ Hh) |].
    split; [rewrite Hi; reflexivity | lia].
Qed.

(** X5. A mutation succeeds only when the catalog, asked during the call,
    reported a stock of at least the requested quantity. *)
Theorem mutation_within_stock (m : mutator) (c : cart.ShoppingCart)
    (userID quantity : Z) (sku : string) (w : world doc) (item : Item) :
  result_of (run (mutate m c userID quantity sku) w) = (Some item, None) ->
  exists p : product.GetProductBySKUResponse,
    catalog w sku = OK p
    /\ Quantity item <= product.GetStockQuantity (product.GetProduct p).
Proof.
  intros Hok. destruct m; cbn [mutate] in *.
  - apply AddItem_success in Hok
      as (p & pr & d & Hc & Hp & Hq & _ & Hi & _).
    exists p. split; [exact Hc |].
    unfold product.GetProduct. rewrite Hp, Hi. cbn. lia.
  - apply UpdateItemQuantity_success in Hok
      as (old & d & item0 & p & _ & _ & Hc & Hq & Hi & _).
    exists p. split; [exact Hc |]. rewrite Hi. cbn. lia.
Qed.


(** X7. A mutation that returns an error has not touched any expiry. *)
Theorem failed_mutation_keeps_expiry (m : mutator) (c : cart.ShoppingCart)
    (userID quantity : Z) (sku : string) (w : world doc)
    (item : option Item) (err : error) :
  result_of (run (mutate m c userID quantity sku) w) = (item, Some err) ->
  expiry (world_of (run (mutate m c userID quantity sku) w)) = expiry w.
Proof.
  destruct m; unfold mutate, cart.AddItem, cart.UpdateItemQuantity; symbex;
    intros Herr; first [discriminate Herr | reflexivity].
Qed.

(** X8. [AddItem] is not atomic: when the [HSet] goes through and the
    [Expire] that follows fails, the method returns that failure although
    the entry is already stored, and the expiry has not been refreshed. *)
Theorem AddItem_partial_write (c : cart.ShoppingCart) (userID quantity : Z)
    (sku : string) (w : world doc) (p : product.GetProductBySKUResponse)
    (pr : product.Product) (d : doc) (err : error) (rest : list (option error)) :
  1 <= quantity <= product.StockQuantity pr ->
  sku <> "" ->
  catalog w sku = OK p ->
  product.Product_ptr p = Some pr ->
  json_Marshal {| Quantity := quantity;
                  Price := product.Price pr;
                  Name := product.Name pr;
                  ImageURL := product.ImageUrl pr;
                  ItemTotalPrice := PrimFloat.mul (float64_of_int32 quantity) (product.Price pr) |}
  = OK d ->
  outages w = None :: Some err :: rest ->
  result_of (run (cart.AddItem c userID quantity sku) w) = (None, Some err)
  /\ hash_at (world_of (run (cart.AddItem c userID quantity sku) w)) (cart.cartKey userID) !! sku
     = Some d
  /\ expiry (world_of (run (cart.AddItem c userID quantity sku) w)) = expiry w.
Proof.
  intros Hq Hsku Hc Hp Hm Ho.
  unfold cart.AddItem.
  replace (quantity <=? 0) with false by (symmetry; apply Z.leb_gt; lia).
  apply String.eqb_neq in Hsku. rewrite Hsku.
  run_cbn. rewrite Hc. run_cbn.
  unfold product.GetProduct. rewrite Hp. cbn [product.GetStockQuantity].
  replace (product.StockQuantity pr <? quantity) with false
    by (symmetry; apply Z.ltb_ge; lia).
  assert (Hn1 : next_outage w = None)
    by (unfold next_outage; rewrite Ho; reflexivity).
  assert (Hn2 : forall h e, next_outage (set_store (pop_outage w) h e) = Some err)
    by (intros h e; unfold next_outage; cbn [outages set_store pop_outage];
        rewrite Ho; reflexivity).
  rewrite Hm. run_cbn. rewrite Hn1. run_cbn. rewrite Hn2. run_cbn.
  split; [reflexivity |]. split; [| reflexivity].
  unfold hash_at at 1. cbn [hashes pop_outage set_store]. rewrite lookup_insert_eq.
  cbn [default from_option id]. apply lookup_insert_eq.
Qed.

End MutationEffect.

(** ** Isolation between users, and reading *)

Section Isolation.

Context {doc : Type} `{!JSON doc}.

Lemma cartKey_inj (userID other : Z) :
  cart.cartKey userID = cart.cartKey other -> userID = other.
Proof.
  unfold cart.cartKey. intros E.
  apply (inj (String.append "cart:")) in E.
  apply (inj pretty) in E. exact E.
Qed.

Ltac frame_lookups :=
  unfold hash_at; cbn [hashes expiry set_store pop_outage];
  repeat first [rewrite lookup_insert_ne by assumption
               | rewrite lookup_delete_ne by assumption];
  split; reflexivity.

(** X9. Whatever a write operation for one user does, and whether it
    succeeds or not, the cart and the expiry of every other user are left as
    they were. *)
Theorem other_carts_untouched (c : cart.ShoppingCart) (userID other quantity : Z)
    (sku : string) (w : world doc) :
  other <> userID ->
  (forall m : mutator,
     hash_at (world_of (run (mutate m c userID quantity sku) w)) (cart.cartKey other)
     = hash_at w (cart.cartKey other)
     /\ expiry (world_of (run (mutate m c userID quantity sku) w)) !! cart.cartKey other
        = expiry w !! cart.cartKey other)
  /\ (hash_at (world_of (run (cart.RemoveItem c userID sku) w)) (cart.cartKey other)
      = hash_at w (cart.cartKey other)
      /\ expiry (world_of (run (cart.RemoveItem c userID sku) w)) !! cart.cartKey other
         = expiry w !! cart.cartKey other)
  /\ (hash_at (world_of (run (cart.ClearCart c userID) w)) (cart.cartKey other)
      = hash_at w (cart.cartKey other)
      /\ expiry (world_of (run (cart.ClearCart c userID) w)) !! cart.cartKey other
         = expiry w !! cart.cartKey other).
Proof.
  intros Hne.
  assert (Hk : cart.cartKey userID <> cart.cartKey other)
    by (intros E; apply cartKey_inj in E; congruence).
  split; [| split].
  - intros m. destruct m; unfold mutate, cart.AddItem, cart.UpdateItemQuantity;
      symbex; frame_lookups.
  - unfold cart.RemoveItem. symbex; frame_lookups.
  - unfold cart.ClearCart. symbex; frame_lookups.
Qed.

(** X10. [GetCart] only reads: in every environment, whether it succeeds or
    fails, it issues no write command and no catalog lookup, and the
    keyspace and the expiries are unchanged. *)
Theorem GetCart_reads_only (c : cart.ShoppingCart) (userID : Z) (w : world doc) :
  hashes (world_of (run (cart.GetCart c userID) w)) = hashes w
  /\ expiry (world_of (run (cart.GetCart c userID) w)) = expiry w
  /\ existsb event_is_write (trace_of (run (cart.GetCart c userID) w)) = false
  /\ existsb event_is_catalog (trace_of (run (cart.GetCart c userID) w)) = false.
Proof.
  unfold cart.GetCart. symbex; repeat split.
Qed.

End Isolation.

(** ** Deleting *)

Section Deleting.

Context {doc : Type} `{!JSON doc}.

(** X11. When the store answers, [RemoveItem] leaves the user's cart
    without the sku and with every other entry as it was; this holds whether
    or not the sku, or the cart itself, existed. *)
Theorem RemoveItem_deletes_entry (c : cart.ShoppingCart) (userID : Z) (sku : string)
    (w : world doc) :
  next_outage w = None ->
  hash_at (world_of (run (cart.RemoveItem c userID sku) w)) (cart.cartKey userID)
  = delete sku (hash_at w (cart.cartKey userID)).
Proof.
  intros Hup. unfold cart.RemoveItem. run_cbn. rewrite Hup. run_cbn.
  unfold hash_at. cbn [hashes pop_outage].
  destruct (hashes w !! cart.cartKey userID) as [h |] eqn:Hh; run_cbn.
  - destruct (h !! sku) as [v |] eqn:Hv; run_cbn.
    + destruct (decide (delete sku h = ∅)) as [He | He]; run_cbn.
      * rewrite lookup_delete_eq. cbn. symmetry. exact He.
      * rewrite lookup_insert_eq. reflexivity.
    + rewrite Hh. cbn. symmetry. apply delete_id. exact Hv.
  - rewrite Hh. cbn. symmetry. apply delete_empty.
Qed.

(** X12. [RemoveItem] of an sku that is not in the cart changes neither the
    keyspace nor any expiry, whether the store answers or not. *)
Theorem RemoveItem_absent_no_change (c : cart.ShoppingCart) (userID : Z) (sku : string)
    (w : world doc) :
  hash_at w (cart.cartKey userID) !! sku = None ->
  hashes (world_of (run (cart.RemoveItem c userID sku) w)) = hashes w
  /\ expiry (world_of (run (cart.RemoveItem c userID sku) w)) = expiry w.
Proof.
  unfold cart.RemoveItem, hash_at. symbex; intros Habs;
    first [split; reflexivity | exfalso; cbn in Habs; congruence].
Qed.

(** X13. When [RemoveItem] takes the last entry of a cart, the cart key is
    gone and so is its expiry. *)
Theorem RemoveItem_last_entry (c : cart.ShoppingCart) (userID : Z) (sku : string)
    (w : world doc) (d : doc) :
  next_outage w = None ->
  hashes w !! cart.cartKey userID = Some {[ sku := d ]} ->
  hashes (world_of (run (cart.RemoveItem c userID sku) w)) !! cart.cartKey userID = None
  /\ expiry (world_of (run (cart.RemoveItem c userID sku) w)) !! cart.cartKey userID = None.
Proof.
  intros Hup Hh. unfold cart.RemoveItem. run_cbn. rewrite Hup. run_cbn.
  rewrite Hh. rewrite lookup_singleton_eq. run_cbn.
  rewrite delete_singleton_eq.
  destruct (decide (∅ = ∅)) as [_ | Hne]; [| congruence].
  run_cbn. split; apply lookup_delete_eq.
Qed.

(** X14. When the store answers, [ClearCart] removes the user's cart key and
    its expiry; a [GetCart] that follows (the store still answering) returns
    an empty collection and zero totals. *)
Theorem ClearCart_empties_cart (c : cart.ShoppingCart) (userID : Z) (w : world doc) :
  next_outage w = None ->
  next_outage (world_of (run (cart.ClearCart c userID) w)) = None ->
  hashes (world_of (run (cart.ClearCart c userID) w)) !! cart.cartKey userID = None
  /\ expiry (world_of (run (cart.ClearCart c userID) w)) ⊆ expiry w
  /\ result_of (run (cart.GetCart c userID) (world_of (run (cart.ClearCart c userID) w)))
     = (Some [], 0%float, 0, None).
Proof.
  intros Hup Hup2.
  assert (Hgone : hashes (world_of (run (cart.ClearCart c userID) w)) !! cart.cartKey userID
                  = None).
  { unfold cart.ClearCart. run_cbn. rewrite Hup. run_cbn.
    destruct (hashes w !! cart.cartKey userID) eqn:Hh; run_cbn;
      [apply lookup_delete_eq | exact Hh]. }
  split; [exact Hgone |]. split.
  - unfold cart.ClearCart. run_cbn. rewrite Hup. run_cbn.
    destruct (hashes w !! cart.cartKey userID); run_cbn;
      [apply delete_subseteq | reflexivity].
  - rewrite (GetCart_up c userID _ Hup2).
    unfold hash_at. rewrite Hgone. cbn [default from_option].
    unfold ranged. rewrite map_to_list_empty. reflexivity.
Qed.

End Deleting.

(** ** Operations in sequence *)

Section Sequences.

Context {doc : Type} `{!JSON doc}.

Lemma RemoveItem_up_hash (c : cart.ShoppingCart) (userID : Z) (sku : string)
    (w : world doc) :
  next_outage w = None ->
  hash_at (world_of (run (cart.RemoveItem c userID sku) w)) (cart.cartKey userID) !! sku
  = None.
Proof.
  intros Hup. unfold cart.RemoveItem. run_cbn. rewrite Hup. run_cbn.
  unfold hash_at. cbn [hashes pop_outage].
  destruct (hashes w !! cart.cartKey userID) as [h |] eqn:Hh; run_cbn.
  - destruct (h !! sku) as [v |] eqn:Hv; run_cbn.
    + destruct (decide (delete sku h = ∅)) as [He | He]; run_cbn.
      * rewrite lookup_delete_eq. reflexivity.
      * rewrite lookup_insert_eq. cbn. apply lookup_delete_eq.
    + rewrite Hh. exact Hv.
  - rewrite Hh. reflexivity.
Qed.

Lemma RemoveItem_absent (c : cart.ShoppingCart) (userID : Z) (sku : string)
    (w : world doc) :
  hash_at w (cart.cartKey userID) !! sku = None ->
  hashes (world_of (run (cart.RemoveItem c userID sku) w)) = hashes w
  /\ expiry (world_of (run (cart.RemoveItem c userID sku) w)) = expiry w.
Proof.
  unfold cart.RemoveItem, hash_at. symbex; intros Habs;
    first [split; reflexivity | exfalso; cbn in Habs; congruence].
Qed.

(** X15. [RemoveItem] is idempotent: once it has run against an answering
    store, running it again for the same user and sku changes neither the
    keyspace nor any expiry. *)
Theorem RemoveItem_idempotent (c : cart.ShoppingCart) (userID : Z) (sku : string)
    (w : world doc) :
  next_outage w = None ->
  hashes (world_of (run (cart.RemoveItem c userID sku)
                      (world_of (run (cart.RemoveItem c userID sku) w))))
  = hashes (world_of (run (cart.RemoveItem c userID sku) w))
  /\ expiry (world_of (run (cart.RemoveItem c userID sku)
                         (world_of (run (cart.RemoveItem c userID sku) w))))
     = expiry (world_of (run (cart.RemoveItem c userID sku) w)).
Proof.
  intros Hup. apply RemoveItem_absent. apply RemoveItem_up_hash. exact Hup.
Qed.



(** X18. With a configured [ttl] that is positive and whose nanosecond
    count fits in an [int64], a successful mutation arms the cart key with
    exactly [ttl] seconds. *)
Theorem expiry_is_ttl_seconds (m : mutator) (c : cart.ShoppingCart)
    (userID quantity : Z) (sku : string) (w : world doc) (item : Item) :
  0 < cart.ttl c ->
  cart.ttl c * 1000000000 < 2 ^ 63 ->
  result_of (run (mutate m c userID quantity sku) w) = (Some item, None) ->
  expiry (world_of (run (mutate m c userID quantity sku) w)) !! cart.cartKey userID
  = Some (cart.ttl c).
Proof.
  intros Hpos Hfit Hok.
  pose proof (formatSec_seconds (cart.ttl c) Hpos Hfit) as Hsec.
  assert (Hkeep : (formatSec (time_Duration_mul (cart.ttl c) time_Second) <=? 0) = false)
    by (rewrite Hsec; apply Z.leb_gt; exact Hpos).
  destruct m; cbn [mutate] in *.
  - apply AddItem_success in Hok as (p & pr & d & _ & _ & _ & _ & _ & _ & _ & He & _).
    rewrite He, Hkeep, Hsec. apply lookup_insert_eq.
  - apply UpdateItemQuantity_success in Hok
      as (old & d & i0 & p & _ & _ & _ & _ & _ & _ & _ & He).
    rewrite He, Hkeep, Hsec. apply lookup_insert_eq.
Qed.

End Sequences.

(** ** The request handlers *)

Section Handlers.

Context {doc : Type} `{!JSON doc}.

Definition user_id_missing : error := StatusError codes_Internal "user id missing".

(** X19. Without a user id in the context, each of the five handlers
    returns the status Internal, "user id missing", and makes no call. *)
Theorem handlers_need_user_id (s : server.Server) (quantity : Z) (sku : string)
    (w : world doc) :
  run (server.GetCart s None) w = ((None, Some user_id_missing), w, [])
  /\ run (server.AddItem s None quantity sku) w = ((None, Some user_id_missing), w, [])
  /\ run (server.UpdateItem s None quantity sku) w = ((None, Some user_id_missing), w, [])
  /\ run (server.RemoveItem s None sku) w = ((None, Some user_id_missing), w, [])
  /\ run (server.ClearCart s None) w = ((None, Some user_id_missing), w, []).
Proof. repeat split. Qed.

(** X20. The update handler answers with the status NotFound, "item not
    found in cart", when the inputs are valid, the store answers and the sku
    is not in the user's cart. *)
Theorem UpdateItem_handler_not_found (s : server.Server) (userID quantity : Z)
    (sku : string) (w : world doc) :
  1 <= quantity ->
  sku <> "" ->
  next_outage w = None ->
  hash_at w (cart.cartKey userID) !! sku = None ->
  result_of (run (server.UpdateItem s (Some userID) quantity sku) w)
  = (None, Some (StatusError codes_NotFound "item not found in cart")).
Proof.
  intros Hq Hsku Hup Habs.
  unfold server.UpdateItem, cart.UpdateItemQuantity.
  replace (quantity <=? 0) with false by (symmetry; apply Z.leb_gt; lia).
  apply String.eqb_neq in Hsku. rewrite Hsku.
  run_cbn. rewrite Hup. run_cbn.
  change (hash_at (pop_outage w) (cart.cartKey userID)) with (hash_at w (cart.cartKey userID)).
  rewrite Habs. reflexivity.
Qed.

(** X21. Invalid input is reported by the add and update handlers as the
    status Internal carrying the text of the validation error, and no call
    is made: a quantity that is not positive gives "invalid quantity", an
    empty sku with a positive quantity gives "invalid SKU". *)
Theorem handlers_report_invalid_input_as_internal (s : server.Server)
    (userID quantity : Z) (sku : string) (w : world doc) :
  (quantity <= 0 ->
   run (server.AddItem s (Some userID) quantity sku) w
   = ((None, Some (StatusError codes_Internal "invalid quantity")), w, [])
   /\ run (server.UpdateItem s (Some userID) quantity sku) w
      = ((None, Some (StatusError codes_Internal "invalid quantity")), w, []))
  /\ (1 <= quantity ->
      run (server.AddItem s (Some userID) quantity "") w
      = ((None, Some (StatusError codes_Internal "invalid SKU")), w, [])
      /\ run (server.UpdateItem s (Some userID) quantity "") w
         = ((None, Some (StatusError codes_Internal "invalid SKU")), w, [])).
Proof.
  split; intros Hq.
  - apply Z.leb_le in Hq.
    unfold server.AddItem, server.UpdateItem, cart.AddItem, cart.UpdateItemQuantity.
    rewrite Hq. split; reflexivity.
  - assert (Hq' : (quantity <=? 0) = false) by (apply Z.leb_gt; lia).
    unfold server.AddItem, server.UpdateItem, cart.AddItem, cart.UpdateItemQuantity.
    rewrite Hq'. split; reflexivity.
Qed.

Lemma GetCart_items_error (resItems : list (string * doc)) (acc : list pb.CartItem)
    (e : error) :
  server.GetCart_items resItems acc = inr e ->
  exists msg : string, e = StatusError codes_Internal msg.
Proof.
  revert acc. induction resItems as [| [k d] l IH]; intros acc; cbn.
  - discriminate.
  - destruct (json_Unmarshal d); [apply IH |].
    unfold status_Error. intros E. simplify_eq. eexists. reflexivity.
Qed.

(** X22. The status codes a handler can answer with.  Any error of the add
    handler and of the cart-reading handler that is a status has the code
    Internal; an error of the update handler has the code Internal or
    NotFound. *)
Theorem handler_status_codes (s : server.Server) (ctx_user : option Z)
    (quantity : Z) (sku : string) (w : world doc) (code : Z) (msg : string) :
  (forall x, result_of (run (server.AddItem s ctx_user quantity sku) w)
             = (x, Some (StatusError code msg)) ->
             x = None /\ code = codes_Internal)
  /\ (forall x, result_of (run (server.GetCart s ctx_user) w)
                = (x, Some (StatusError code msg)) ->
                x = None /\ code = codes_Internal)
  /\ (forall x, result_of (run (server.UpdateItem s ctx_user quantity sku) w)
                = (x, Some (StatusError code msg)) ->
                x = None /\ (code = codes_Internal \/ code = codes_NotFound)).
Proof.
  split; [| split]; intros x.
  - unfold server.AddItem, status_Error. destruct ctx_user as [userID |];
      [| cbn; intros E; simplify_eq; split; reflexivity].
    rewrite run_bind. cbn [result_of fst].
    destruct (result_of (run (cart.AddItem (server.Cart s) userID quantity sku) w))
      as [[item |] [[] |]]; cbn; intros E; simplify_eq; split; reflexivity.
  - unfold server.GetCart, status_Error. destruct ctx_user as [userID |];
      [| cbn; intros E; simplify_eq; split; reflexivity].
    rewrite run_bind. cbn [result_of fst].
    destruct (result_of (run (cart.GetCart (server.Cart s) userID) w))
      as [[[res tp] ti] [err |]]; cbn.
    + intros E; simplify_eq; split; reflexivity.
    + destruct (server.GetCart_items (default [] res) []) as [items | e] eqn:Hl; cbn;
        intros E; simplify_eq.
      apply GetCart_items_error in Hl as [msg' Hl]. simplify_eq. split; reflexivity.
  - unfold server.UpdateItem, status_Error. destruct ctx_user as [userID |];
      [| cbn; intros E; simplify_eq; split; [| left]; reflexivity].
    rewrite run_bind. cbn [result_of fst].
    destruct (result_of (run (cart.UpdateItemQuantity (server.Cart s) userID quantity sku) w))
      as [[item |] [[] |]]; cbn; intros E; simplify_eq;
      split; first [reflexivity | left; reflexivity | right; reflexivity].
Qed.

End Handlers.

Section CartHandler.

Context {doc : Type} `{!JSON doc}.




End CartHandler.

(** ** The older package against the validated one *)

Section OlderPackage.

Context {doc : Type} `{!JSON doc}.

(** X24. Whenever the validated [AddItem] succeeds, the older [AddItem]
    run in the same environment returns no error, makes the same calls and
    leaves the same environment: validation only removes behaviours. *)
Theorem older_AddItem_agrees (c : cart.ShoppingCart) (userID quantity : Z)
    (sku : string) (w : world doc) (item : Item) :
  result_of (run (cart.AddItem c userID quantity sku) w) = (Some item, None) ->
  run (cart0.AddItem c userID quantity sku) w
  = (None, world_of (run (cart.AddItem c userID quantity sku) w),
     trace_of (run (cart.AddItem c userID quantity sku) w)).
Proof.
  unfold cart.AddItem, cart0.AddItem. symbex; intros Hok;
    first [discriminate Hok | reflexivity].
Qed.

(** X25. Whenever the validated [UpdateItemQuantity] succeeds, the older
    one run in the same environment returns no error and leaves the same
    keyspace and expiries. *)
Theorem older_UpdateItemQuantity_agrees (c : cart.ShoppingCart) (userID quantity : Z)
    (sku : string) (w : world doc) (item : Item) :
  result_of (run (cart.UpdateItemQuantity c userID quantity sku) w) = (Some item, None) ->
  result_of (run (cart0.UpdateItemQuantity c userID quantity sku) w) = None
  /\ hashes (world_of (run (cart0.UpdateItemQuantity c userID quantity sku) w))
     = hashes (world_of (run (cart.UpdateItemQuantity c userID quantity sku) w))
  /\ expiry (world_of (run (cart0.UpdateItemQuantity c userID quantity sku) w))
     = expiry (world_of (run (cart.UpdateItemQuantity c userID quantity sku) w)).
Proof.
  unfold cart.UpdateItemQuantity, cart0.UpdateItemQuantity. symbex; intros Hok;
    first [discriminate Hok | repeat split].
Qed.

(** X26. The older [UpdateItemQuantity] never consults the catalog, and
    reports an sku that is not in the cart as the store's own [redis.Nil],
    whatever the quantity and the sku are. *)
Theorem older_UpdateItemQuantity_no_catalog (c : cart.ShoppingCart)
    (userID quantity : Z) (sku : string) (w : world doc) :
  existsb event_is_catalog (trace_of (run (cart0.UpdateItemQuantity c userID quantity sku) w))
  = false
  /\ (next_outage w = None ->
      hash_at w (cart.cartKey userID) !! sku = None ->
      run (cart0.UpdateItemQuantity c userID quantity sku) w
      = (Some redis_Nil, pop_outage w,
         [Event (HGet (cart.cartKey userID) sku) (Fail redis_Nil)])).
Proof.
  split.
  - unfold cart0.UpdateItemQuantity. symbex; reflexivity.
  - intros Hup Habs. unfold cart0.UpdateItemQuantity. run_cbn. rewrite Hup. run_cbn.
    change (hash_at (pop_outage w) (cart.cartKey userID))
      with (hash_at w (cart.cartKey userID)).
    rewrite Habs. reflexivity.
Qed.


End OlderPackage.

(** ** Instances on the sample store *)

(** A catalog whose answer carries no product. *)
Definition sample_no_product : world sample.text :=
  World ∅ ∅ (fun _ => OK {| product.Product_ptr := None |}) [] (fun _ => 0%nat).

(** The sample store letting one command through and refusing the next. *)
Definition sample_flaky : world sample.text :=
  World ∅ ∅ (sample.one_product (sample.widget 10%float 100))
    [None; Some (RedisError "i/o timeout")] (fun _ => 0%nat).

Definition sample_server : server.Server := {| server.Cart := sample.shop |}.

Definition sample_item (quantity : Z) (total : float) : Item :=
  {| Quantity := quantity; Price := 10%float; Name := "Widget";
     ImageURL := "https://img.example/widget.png"; ItemTotalPrice := total |}.

Lemma empty_sku_no_effect_witness :
  1 <= 3
  /\ run (mutate Add sample.shop 7 3 "") sample.empty_world
     = ((None, Some ErrInvalidSKU), sample.empty_world, []).
Proof.
  assert (H1 : 1 <= 3) by lia.
  split; [exact H1 |].
  exact (empty_sku_no_effect Add sample.shop 7 3 sample.empty_world H1).
Defined.

Lemma catalog_failure_outcome_witness :
  let err := StatusError codes_NotFound "product not found" in
  let r := run (mutate Add sample.shop 7 3 "SKU-9") sample.empty_world in
  In (Some (Fail err)) (map catalog_answer (trace_of r))
  /\ result_of r
     = (None, Some (if status_Code err =? codes_NotFound then ErrProductNotFound else err))
  /\ hashes (world_of r) = hashes sample.empty_world
  /\ expiry (world_of r) = expiry sample.empty_world
  /\ existsb event_is_write (trace_of r) = false.
Proof.
  intros err r.
  assert (H1 : In (Some (Fail err)) (map catalog_answer (trace_of r)))
    by (vm_compute; left; reflexivity).
  split; [exact H1 |].
  exact (catalog_failure_outcome Add sample.shop 7 3 "SKU-9" sample.empty_world err H1).
Defined.

Lemma missing_product_is_out_of_stock_witness :
  let p := {| product.Product_ptr := None |} in
  let r := run (mutate Add sample.shop 7 3 "SKU-1") sample_no_product in
  In (Some (OK p)) (map catalog_answer (trace_of r))
  /\ product.Product_ptr p = None
  /\ result_of r = (None, Some ErrInsufficientStock)
  /\ hashes (world_of r) = hashes sample_no_product
  /\ expiry (world_of r) = expiry sample_no_product.
Proof.
  intros p r.
  assert (H1 : In (Some (OK p)) (map catalog_answer (trace_of r)))
    by (vm_compute; left; reflexivity).
  assert (H2 : product.Product_ptr p = None) by reflexivity.
  split; [exact H1 |]. split; [exact H2 |].
  exact (missing_product_is_out_of_stock Add sample.shop 7 3 "SKU-1" sample_no_product p H1 H2).
Defined.

Lemma mutation_stores_one_entry_witness :
  let r := run (mutate Update sample.shop 7 5 "SKU-1") sample.cart_world in
  let r' := run (mutate Add sample.shop 7 3 "SKU-1") sample.cart_world in
  0 < time_Duration_mul (cart.ttl sample.shop) time_Second
  /\ result_of r = (Some (sample_item 5 20%float), None)
  /\ (exists d : sample.text,
        json_Unmarshal d = OK (sample_item 5 20%float)
        /\ hash_at (world_of r) (cart.cartKey 7)
           = <[ "SKU-1" := d ]> (hash_at sample.cart_world (cart.cartKey 7))
        /\ Quantity (sample_item 5 20%float) = 5
        /\ 1 <= 5)
  /\ result_of r' = (Some (sample_item 3 30%float), None)
  /\ exists d : sample.text,
       json_Unmarshal d = OK (sample_item 3 30%float)
       /\ hash_at (world_of r') (cart.cartKey 7)
          = <[ "SKU-1" := d ]> (hash_at sample.cart_world (cart.cartKey 7))
       /\ Quantity (sample_item 3 30%float) = 3
       /\ 1 <= 3.
Proof.
  intros r r'.
  assert (H0 : 0 < time_Duration_mul (cart.ttl sample.shop) time_Second) by reflexivity.
  assert (H1 : result_of r = (Some (sample_item 5 20%float), None))
    by (vm_compute; reflexivity).
  assert (H2 : result_of r' = (Some (sample_item 3 30%float), None))
    by (vm_compute; reflexivity).
  split; [exact H0 |]. split; [exact H1 |].
  split; [exact (mutation_stores_one_entry Update sample.shop 7 5 "SKU-1"
                   sample.cart_world _ H0 H1) |].
  split; [exact H2 |].
  exact (mutation_stores_one_entry Add sample.shop 7 3 "SKU-1" sample.cart_world _ H0 H2).
Defined.

Lemma mutation_within_stock_witness :
  let r := run (mutate Add sample.shop 7 3 "SKU-1") sample.empty_world in
  result_of r = (Some (sample_item 3 30%float), None)
  /\ exists p : product.GetProductBySKUResponse,
       catalog sample.empty_world "SKU-1" = OK p
       /\ Quantity (sample_item 3 30%float)
          <= product.GetStockQuantity (product.GetProduct p).
Proof.
  intros r.
  assert (H1 : result_of r = (Some (sample_item 3 30%float), None))
    by (vm_compute; reflexivity).
  split; [exact H1 |].
  exact (mutation_within_stock Add sample.shop 7 3 "SKU-1" sample.empty_world _ H1).
Defined.


Lemma failed_mutation_keeps_expiry_witness :
  let r := run (mutate Update sample.shop 7 500 "SKU-1") sample.cart_world in
  result_of r = (None, Some ErrInsufficientStock)
  /\ expiry (world_of r) = expiry sample.cart_world.
Proof.
  intros r.
  assert (H1 : result_of r = (None, Some ErrInsufficientStock)) by (vm_compute; reflexivity).
  split; [exact H1 |].
  exact (failed_mutation_keeps_expiry Update sample.shop 7 500 "SKU-1" sample.cart_world
           _ _ H1).
Defined.

Lemma AddItem_partial_write_witness :
  let p := {| product.Product_ptr := Some (sample.widget 10%float 100) |} in
  let err := RedisError "i/o timeout" in
  let r := run (cart.AddItem sample.shop 7 3 "SKU-1") sample_flaky in
  1 <= 3 <= product.StockQuantity (sample.widget 10%float 100)
  /\ "SKU-1" <> ""
  /\ catalog sample_flaky "SKU-1" = OK p
  /\ outages sample_flaky = [None; Some err]
  /\ result_of r = (None, Some err)
  /\ hash_at (world_of r) (cart.cartKey 7) !! "SKU-1"
     = Some (sample.Encoded (sample_item 3 30%float))
  /\ expiry (world_of r) = expiry sample_flaky.
Proof.
  intros p err r.
  assert (H1 : 1 <= 3 <= product.StockQuantity (sample.widget 10%float 100))
    by (cbn; lia).
  assert (H2 : "SKU-1" <> "") by discriminate.
  assert (H3 : catalog sample_flaky "SKU-1" = OK p) by reflexivity.
  assert (H4 : outages sample_flaky = [None; Some err]) by reflexivity.
  split; [exact H1 |]. split; [exact H2 |]. split; [exact H3 |]. split; [exact H4 |].
  exact (AddItem_partial_write sample.shop 7 3 "SKU-1" sample_flaky p
           (sample.widget 10%float 100) (sample.Encoded (sample_item 3 30%float))
           err [] H1 H2 H3 eq_refl eq_refl H4).
Defined.

Lemma other_carts_untouched_witness :
  let r := run (mutate Add sample.shop 8 1 "SKU-1") sample.cart_world in
  7 <> 8
  /\ hash_at (world_of r) (cart.cartKey 7) = hash_at sample.cart_world (cart.cartKey 7)
  /\ expiry (world_of r) !! cart.cartKey 7 = expiry sample.cart_world !! cart.cartKey 7.
Proof.
  intros r.
  assert (H1 : 7 <> 8) by lia.
  split; [exact H1 |].
  exact (proj1 (other_carts_untouched sample.shop 8 7 1 "SKU-1" sample.cart_world H1) Add).
Defined.

Lemma RemoveItem_deletes_entry_witness :
  let r := run (cart.RemoveItem sample.shop 7 "SKU-1") sample.bulk_world in
  next_outage sample.bulk_world = None
  /\ hash_at (world_of r) (cart.cartKey 7)
     = delete "SKU-1" (hash_at sample.bulk_world (cart.cartKey 7)).
Proof.
  intros r.
  assert (H1 : next_outage sample.bulk_world = None) by reflexivity.
  split; [exact H1 |].
  exact (RemoveItem_deletes_entry sample.shop 7 "SKU-1" sample.bulk_world H1).
Defined.

Lemma RemoveItem_absent_no_change_witness :
  let r := run (cart.RemoveItem sample.shop 7 "SKU-2") sample.cart_world in
  hash_at sample.cart_world (cart.cartKey 7) !! "SKU-2" = None
  /\ hashes (world_of r) = hashes sample.cart_world
  /\ expiry (world_of r) = expiry sample.cart_world.
Proof.
  intros r.
  assert (H1 : hash_at sample.cart_world (cart.cartKey 7) !! "SKU-2" = None)
    by (vm_compute; reflexivity).
  split; [exact H1 |].
  exact (RemoveItem_absent_no_change sample.shop 7 "SKU-2" sample.cart_world H1).
Defined.

Lemma RemoveItem_last_entry_witness :
  let r := run (cart.RemoveItem sample.shop 7 "SKU-1") sample.cart_world in
  next_outage sample.cart_world = None
  /\ hashes sample.cart_world !! cart.cartKey 7
     = Some {[ "SKU-1" := sample.Encoded (sample_item 2 20%float) ]}
  /\ hashes (world_of r) !! cart.cartKey 7 = None
  /\ expiry (world_of r) !! cart.cartKey 7 = None.
Proof.
  intros r.
  assert (H1 : next_outage sample.cart_world = None) by reflexivity.
  assert (H2 : hashes sample.cart_world !! cart.cartKey 7
               = Some {[ "SKU-1" := sample.Encoded (sample_item 2 20%float) ]})
    by (vm_compute; reflexivity).
  split; [exact H1 |]. split; [exact H2 |].
  exact (RemoveItem_last_entry sample.shop 7 "SKU-1" sample.cart_world _ H1 H2).
Defined.

Lemma ClearCart_empties_cart_witness :
  let w1 := world_of (run (cart.ClearCart sample.shop 7) sample.bulk_world) in
  next_outage sample.bulk_world = None
  /\ next_outage w1 = None
  /\ hashes w1 !! cart.cartKey 7 = None
  /\ expiry w1 ⊆ expiry sample.bulk_world
  /\ result_of (run (cart.GetCart sample.shop 7) w1) = (Some [], 0%float, 0, None).
Proof.
  intros w1.
  assert (H1 : next_outage sample.bulk_world = None) by reflexivity.
  assert (H2 : next_outage w1 = None) by reflexivity.
  split; [exact H1 |]. split; [exact H2 |].
  exact (ClearCart_empties_cart sample.shop 7 sample.bulk_world H1 H2).
Defined.

Lemma RemoveItem_idempotent_witness :
  let w1 := world_of (run (cart.RemoveItem sample.shop 7 "SKU-1") sample.bulk_world) in
  let w2 := world_of (run (cart.RemoveItem sample.shop 7 "SKU-1") w1) in
  next_outage sample.bulk_world = None
  /\ hashes w2 = hashes w1
  /\ expiry w2 = expiry w1.
Proof.
  intros w1 w2.
  assert (H1 : next_outage sample.bulk_world = None) by reflexivity.
  split; [exact H1 |].
  exact (RemoveItem_idempotent sample.shop 7 "SKU-1" sample.bulk_world H1).
Defined.



Lemma expiry_is_ttl_seconds_witness :
  let r := run (mutate Add sample.shop 7 3 "SKU-1") sample.empty_world in
  let r' := run (mutate Update sample.shop 7 5 "SKU-1") sample.unarmed_world in
  0 < cart.ttl sample.shop
  /\ cart.ttl sample.shop * 1000000000 < 2 ^ 63
  /\ result_of r = (Some (sample_item 3 30%float), None)
  /\ expiry (world_of r) !! cart.cartKey 7 = Some 1800
  /\ expiry sample.unarmed_world !! cart.cartKey 7 = None
  /\ result_of r' = (Some (sample_item 5 20%float), None)
  /\ expiry (world_of r') !! cart.cartKey 7 = Some 1800.
Proof.
  intros r r'.
  assert (H0 : 0 < cart.ttl sample.shop) by reflexivity.
  assert (H1 : cart.ttl sample.shop * 1000000000 < 2 ^ 63) by reflexivity.
  assert (H2 : result_of r = (Some (sample_item 3 30%float), None))
    by (vm_compute; reflexivity).
  assert (H3 : result_of r' = (Some (sample_item 5 20%float), None))
    by (vm_compute; reflexivity).
  split; [exact H0 |]. split; [exact H1 |]. split; [exact H2 |].
  split; [exact (expiry_is_ttl_seconds Add sample.shop 7 3 "SKU-1" sample.empty_world
                   _ H0 H1 H2) |].
  split; [reflexivity |]. split; [exact H3 |].
  exact (expiry_is_ttl_seconds Update sample.shop 7 5 "SKU-1" sample.unarmed_world
           _ H0 H1 H3).
Defined.

Lemma UpdateItem_handler_not_found_witness :
  1 <= 3
  /\ "SKU-1" <> ""
  /\ next_outage sample.empty_world = None
  /\ hash_at sample.empty_world (cart.cartKey 7) !! "SKU-1" = None
  /\ result_of (run (server.UpdateItem sample_server (Some 7) 3 "SKU-1") sample.empty_world)
     = (None, Some (StatusError codes_NotFound "item not found in cart")).
Proof.
  assert (H1 : 1 <= 3) by lia.
  assert (H2 : "SKU-1" <> "") by discriminate.
  assert (H3 : next_outage sample.empty_world = None) by reflexivity.
  assert (H4 : hash_at sample.empty_world (cart.cartKey 7) !! "SKU-1" = None)
    by (vm_compute; reflexivity).
  split; [exact H1 |]. split; [exact H2 |]. split; [exact H3 |]. split; [exact H4 |].
  exact (UpdateItem_handler_not_found sample_server 7 3 "SKU-1" sample.empty_world
           H1 H2 H3 H4).
Defined.

Lemma handlers_report_invalid_input_as_internal_witness :
  0 <= 0
  /\ run (server.AddItem sample_server (Some 7) 0 "SKU-1") sample.cart_world
     = ((None, Some (StatusError codes_Internal "invalid quantity")), sample.cart_world, [])
  /\ run (server.UpdateItem sample_server (Some 7) 0 "SKU-1") sample.cart_world
     = ((None, Some (StatusError codes_Internal "invalid quantity")), sample.cart_world, []).
Proof.
  assert (H1 : 0 <= 0) by lia.
  split; [exact H1 |].
  exact (proj1 (handlers_report_invalid_input_as_internal sample_server 7 0 "SKU-1"
                  sample.cart_world) H1).
Defined.

Lemma handler_status_codes_witness :
  result_of (run (server.UpdateItem sample_server (Some 7) 3 "SKU-1") sample.empty_world)
  = (None, Some (StatusError codes_NotFound "item not found in cart"))
  /\ (@None pb.UpdateItemResponse = None
      /\ (codes_NotFound = codes_Internal \/ codes_NotFound = codes_NotFound)).
Proof.
  assert (H1 : result_of (run (server.UpdateItem sample_server (Some 7) 3 "SKU-1")
                            sample.empty_world)
               = (None, Some (StatusError codes_NotFound "item not found in cart")))
    by (vm_compute; reflexivity).
  split; [exact H1 |].
  exact (proj2 (proj2 (handler_status_codes sample_server (Some 7) 3 "SKU-1"
                         sample.empty_world codes_NotFound "item not found in cart"))
           None H1).
Defined.


Lemma older_AddItem_agrees_witness :
  let r := run (cart.AddItem sample.shop 7 3 "SKU-1") sample.empty_world in
  result_of r = (Some (sample_item 3 30%float), None)
  /\ run (cart0.AddItem sample.shop 7 3 "SKU-1") sample.empty_world
     = (None, world_of r, trace_of r).
Proof.
  intros r.
  assert (H1 : result_of r = (Some (sample_item 3 30%float), None))
    by (vm_compute; reflexivity).
  split; [exact H1 |].
  exact (older_AddItem_agrees sample.shop 7 3 "SKU-1" sample.empty_world _ H1).
Defined.

Lemma older_UpdateItemQuantity_agrees_witness :
  let r := run (cart.UpdateItemQuantity sample.shop 7 5 "SKU-1") sample.cart_world in
  let r0 := run (cart0.UpdateItemQuantity sample.shop 7 5 "SKU-1") sample.cart_world in
  result_of r = (Some (sample_item 5 20%float), None)
  /\ result_of r0 = None
  /\ hashes (world_of r0) = hashes (world_of r)
  /\ expiry (world_of r0) = expiry (world_of r).
Proof.
  intros r r0.
  assert (H1 : result_of r = (Some (sample_item 5 20%float), None))
    by (vm_compute; reflexivity).
  split; [exact H1 |].
  exact (older_UpdateItemQuantity_agrees sample.shop 7 5 "SKU-1" sample.cart_world _ H1).
Defined.

Lemma older_UpdateItemQuantity_no_catalog_witness :
  next_outage sample.empty_world = None
  /\ hash_at sample.empty_world (cart.cartKey 7) !! "" = None
  /\ run (cart0.UpdateItemQuantity sample.shop 7 (-4) "") sample.empty_world
     = (Some redis_Nil, pop_outage sample.empty_world,
        [Event (HGet (cart.cartKey 7) "") (Fail redis_Nil)]).
Proof.
  assert (H1 : next_outage sample.empty_world = None) by reflexivity.
  assert (H2 : hash_at sample.empty_world (cart.cartKey 7) !! "" = None)
    by (vm_compute; reflexivity).
  split; [exact H1 |]. split; [exact H2 |].
  exact (proj2 (older_UpdateItemQuantity_no_catalog sample.shop 7 (-4) "" sample.empty_world)
           H1 H2).
Defined.

